(** * WhatsApp / Gemini bot: a shallow embedding of [app.py]

    The bot is a thin orchestration of two external systems, a Selenium
    Chrome driver and the Gemini SDK, around one shared [WhatsAppBot]
    object.  The embedding keeps that shape:

    - the external systems are an interface [Env] over an abstract
      [World]; nothing is assumed about what they answer;
    - every method is written in a state-and-exception monad [M] over a
      [machine]: the shared bot object, the world and the history of
      the calls made so far;
    - Python exceptions are the [Raise] results of [M]; [try/except
      Exception] is [try_except];
    - the bot object is shared between the Flask request threads and the
      polling thread.  Whenever a thread blocks in an external call the
      others may run: [other_threads] says what they do to the object. *)

From Stdlib Require Import String Ascii List Bool Arith Lia.
Import ListNotations.
Open Scope string_scope.

(** ** Values *)

(** A Python exception: its class and [str(e)]. *)
Record exn : Type := Exception { exn_class : string; exn_str : string }.

Inductive result (A : Type) : Type :=
| Ok (a : A)
| Raise (e : exn).
Arguments Ok {A} a.
Arguments Raise {A} e.

(** [webdriver.Chrome] objects and [WebElement]s are opaque references. *)
Definition handle := nat.
Definition element := nat.

(** The value of [model.generate_content]; reading [.text] may raise. *)
Inductive response : Type := Response (text : result string).

Definition response_text (r : response) : result string :=
  match r with Response t => t end.

(** The image built by [qrcode.make]. *)
Inductive image : Type := QRImage (data : string).

Record chrome_options : Type :=
  { arguments : list string; binary_location : string }.

Definition ChromeOptions : chrome_options :=
  {| arguments := []; binary_location := EmptyString |}.

Definition add_argument (a : string) (o : chrome_options) : chrome_options :=
  {| arguments := arguments o ++ [a]; binary_location := binary_location o |}.

Definition set_binary_location (p : string) (o : chrome_options) : chrome_options :=
  {| arguments := arguments o; binary_location := p |}.

(** JSON bodies returned by the Flask routes (dict literals, in key order). *)
Inductive jvalue : Type :=
| JStr (s : string)
| JBool (b : bool).

Definition json := list (string * jvalue).

(** ** The bot object *)

Record WhatsAppBot : Type :=
  { driver : option handle;
    is_authenticated : bool;
    running : bool }.

(** [WhatsAppBot.__init__] *)
Definition init_bot : WhatsAppBot :=
  {| driver := None; is_authenticated := false; running := false |}.

(** ** Calls that leave the process *)

Inductive event : Type :=
| Chrome (options : chrome_options) (service_log_path : string)
| Get (h : handle) (url : string)
| Quit (h : handle)
| WaitUntilPresent (h : handle) (timeout : nat) (css : string)
| ExecuteScript (h : handle) (script : string) (arg : element)
| Show (img : image)
| FindElements (h : handle) (css : string)
| FindElement (h : handle) (css : string)
| Click (el : element)
| Text (el : element)
| GetAttribute (el : element) (name : string)
| SendKeys (el : element) (keys : string)
| Sleep (secs : nat)
| GenerateContent (prompt : string)
| ThreadStart
| LogInfo (msg : string)
| LogError (msg : string).

(** What the outside answers.  [quit] has no exceptional outcome: the
    Chrome driver's [quit] swallows every exception of the remote command
    and then stops its service.  [time.sleep] and the logger do not raise
    either.  [WebDriverWait(d, t).until(presence_of_element_located(css))]
    is the single call [wait_until_present], raising [TimeoutException]
    when the element does not show up in [t] seconds. *)
Record Env (World : Type) : Type :=
  { environ : string -> option string;
    chrome : chrome_options -> string -> World -> result handle * World;
    get : handle -> string -> World -> result unit * World;
    quit : handle -> World -> World;
    wait_until_present : handle -> nat -> string -> World -> result element * World;
    execute_script : handle -> string -> element -> World -> result string * World;
    b64decode : string -> result string;
    qrcode_make : string -> result image;
    show : image -> World -> result unit * World;
    find_elements : handle -> string -> World -> result (list element) * World;
    find_element : handle -> string -> World -> result element * World;
    click : element -> World -> result unit * World;
    text_of : element -> World -> result string * World;
    get_attribute : element -> string -> World -> result (option string) * World;
    send_keys : element -> string -> World -> result unit * World;
    sleep : nat -> World -> World;
    generate_content : string -> World -> result response * World;
    other_threads : World -> WhatsAppBot -> WhatsAppBot }.

Arguments environ {World} _ _.
Arguments chrome {World} _ _ _ _.
Arguments get {World} _ _ _ _.
Arguments quit {World} _ _ _.
Arguments wait_until_present {World} _ _ _ _ _.
Arguments execute_script {World} _ _ _ _ _.
Arguments b64decode {World} _ _.
Arguments qrcode_make {World} _ _.
Arguments show {World} _ _ _.
Arguments find_elements {World} _ _ _ _.
Arguments find_element {World} _ _ _ _.
Arguments click {World} _ _ _.
Arguments text_of {World} _ _ _.
Arguments get_attribute {World} _ _ _ _.
Arguments send_keys {World} _ _ _ _.
Arguments sleep {World} _ _ _.
Arguments generate_content {World} _ _ _.
Arguments other_threads {World} _ _ _.

(** No other thread touches the bot object. *)
Definition Quiet {World : Type} (E : Env World) : Prop :=
  forall w b, other_threads E w b = b.

(** ** Strings

    A Python [str] is held as its UTF-8 encoding, one [ascii] per byte,
    which is what a Rocq string literal is. *)

Definition newline : string := String (ascii_of_nat 10) EmptyString.

(** Python's [needle in hay] on strings. *)
Fixpoint contains (needle hay : string) : bool :=
  match hay with
  | EmptyString => prefix needle hay
  | String _ rest => prefix needle hay || contains needle rest
  end.

(** Python's [str.lower] on the letters A-Z.  The other bytes are kept;
    no character outside ASCII lowers to one of "t", "r", "u", "e", so the
    comparison of [run_bot_in_background] is not affected. *)
Definition lower_ascii (c : ascii) : ascii :=
  let n := nat_of_ascii c in
  if (65 <=? n)%nat && (n <=? 90)%nat then ascii_of_nat (n + 32) else c.

Fixpoint lower (s : string) : string :=
  match s with
  | EmptyString => EmptyString
  | String c rest => String (lower_ascii c) (lower rest)
  end.

(** A byte [10xxxxxx]: it continues the code point begun before it. *)
Definition continuation (c : ascii) : bool :=
  match c with
  | Ascii _ _ _ _ _ _ false true => true
  | _ => false
  end.

(** Python's [len(s)]: the number of code points. *)
Fixpoint code_points (s : string) : nat :=
  match s with
  | EmptyString => 0
  | String c rest =>
      if continuation c then code_points rest else S (code_points rest)
  end.

(** Python's [s[:n]]: the first [n] code points, each with all its bytes. *)
Fixpoint take (n : nat) (s : string) : string :=
  match s with
  | EmptyString => EmptyString
  | String c rest =>
      if continuation c then String c (take n rest)
      else
        match n with
        | 0 => EmptyString
        | S n' => String c (take n' rest)
        end
  end.

(** Python's [xs[-1]] on a non-empty list. *)
Fixpoint last_element {A : Type} (xs : list A) : option A :=
  match xs with
  | [] => None
  | [x] => Some x
  | _ :: rest => last_element rest
  end.

(** ** Constants of the source *)

Definition whatsapp_url := "https://web.whatsapp.com".
Definition devnull := "/dev/null".
Definition qr_selector := "canvas[aria-label='Scan me!']".
Definition chat_list_selector := "div[data-testid='chat-list']".
Definition unread_selector := "div[aria-label='Unread']".
Definition message_selector := "div[class*='message-in'], div[class*='message-out']".
Definition input_selector := "div[contenteditable='true'][data-tab='10']".
(** The script of [wait_for_login], without the line breaks of the literal. *)
Definition qr_script :=
  "var canvas = arguments[0]; return canvas.toDataURL('image/png').substring(22);".
Definition fallback_message :=
  "I'm having trouble connecting to the AI service. Please try again later.".

(** The message direction, as the loop infers it from the class marker. *)
Inductive direction : Type := incoming | outgoing.

Definition direction_of (class : string) : direction :=
  if contains "message-in" class then incoming else outgoing.

(** ** Machine and monad *)

Section Monad.

Context {World : Type}.

(** Each history entry pairs a call with the bot object as the other
    threads see it while the call is in progress. *)
Record machine : Type :=
  { bot : WhatsAppBot;
    world : World;
    history : list (WhatsAppBot * event) }.

Definition M (A : Type) : Type := machine -> result A * machine.

Definition ret {A} (a : A) : M A := fun m => (Ok a, m).

Definition raise {A} (e : exn) : M A := fun m => (Raise e, m).

Definition bind {A B} (c : M A) (k : A -> M B) : M B :=
  fun m => match c m with
           | (Ok a, m') => k a m'
           | (Raise e, m') => (Raise e, m')
           end.

(** [try: c except Exception as e: h e] *)
Definition try_except {A} (c : M A) (h : exn -> M A) : M A :=
  fun m => match c m with
           | (Ok a, m') => (Ok a, m')
           | (Raise e, m') => h e m'
           end.

Definition lift {A} (r : result A) : M A := fun m => (r, m).

Definition record (ev : event) (m : machine) : list (WhatsAppBot * event) :=
  history m ++ [(bot m, ev)].

(** A blocking call: the world answers, the other threads run. *)
Definition call {A} (E : Env World) (ev : event)
    (op : World -> result A * World) : M A :=
  fun m => let (r, w) := op (world m) in
           (r, {| bot := other_threads E w (bot m);
                  world := w;
                  history := record ev m |}).

Definition call_total (E : Env World) (ev : event) (op : World -> World) : M unit :=
  call E ev (fun w => (Ok tt, op w)).

(** A call that neither blocks nor reaches the world (logging, thread start). *)
Definition emit (ev : event) : M unit :=
  fun m => (Ok tt, {| bot := bot m; world := world m; history := record ev m |}).

Definition read {A} (field : WhatsAppBot -> A) : M A :=
  fun m => (Ok (field (bot m)), m).

Definition write (upd : WhatsAppBot -> WhatsAppBot) : M unit :=
  fun m => (Ok tt, {| bot := upd (bot m); world := world m; history := history m |}).

(** [for x in xs: body x] *)
Fixpoint for_each {A} (xs : list A) (body : A -> M unit) : M unit :=
  match xs with
  | [] => ret tt
  | x :: rest => bind (body x) (fun _ => for_each rest body)
  end.

(** The calls made so far, oldest first. *)
Definition events (m : machine) : list event := map snd (history m).

End Monad.

Arguments machine World : clear implicits.
Arguments M World A : clear implicits.

Declare Scope bot_scope.
Delimit Scope bot_scope with bot.
Notation "x <- c ;; k" := (bind c (fun x => k))
  (at level 61, c at next level, right associativity) : bot_scope.
Notation "c ;; k" := (bind c (fun _ => k))
  (at level 61, right associativity) : bot_scope.
Open Scope bot_scope.

(** ** The methods of [WhatsAppBot] and the routes *)

Section Bot.

Context {World : Type}.
Variable E : Env World.

Definition set_driver (h : handle) : M World unit :=
  write (fun b => {| driver := Some h;
                     is_authenticated := is_authenticated b;
                     running := running b |}).

Definition set_is_authenticated (v : bool) : M World unit :=
  write (fun b => {| driver := driver b;
                     is_authenticated := v;
                     running := running b |}).

Definition set_running (v : bool) : M World unit :=
  write (fun b => {| driver := driver b;
                     is_authenticated := is_authenticated b;
                     running := v |}).

(** [self.driver.<method>]: the attribute lookup fails on [None].  A
    [WebDriverWait] built on [None] fails the same way at its first poll,
    on [find_element]. *)
Definition AttributeError (attr : string) : exn :=
  Exception "AttributeError" ("'NoneType' object has no attribute '" ++ attr ++ "'").

Definition self_driver (attr : string) : M World handle :=
  d <- read driver ;;
  match d with
  | Some h => ret h
  | None => raise (AttributeError attr)
  end.

Definition logger_info (msg : string) : M World unit := emit (LogInfo msg).
Definition logger_error (msg : string) : M World unit := emit (LogError msg).
Definition time_sleep (secs : nat) : M World unit := call_total E (Sleep secs) (sleep E secs).

(** [os.environ.get(key, default)] *)
Definition environ_get (key default : string) : string :=
  match environ E key with
  | Some v => v
  | None => default
  end.

Definition initialize_driver : M World unit :=
  let chrome_options := ChromeOptions in
  let chrome_options := add_argument "--no-sandbox" chrome_options in
  let chrome_options := add_argument "--disable-dev-shm-usage" chrome_options in
  let chrome_options := add_argument "--headless" chrome_options in
  let chrome_options := add_argument "--disable-gpu" chrome_options in
  let chrome_options :=
    set_binary_location (environ_get "GOOGLE_CHROME_BIN" "/usr/bin/google-chrome")
      chrome_options in
  h <- call E (Chrome chrome_options devnull) (chrome E chrome_options devnull) ;;
  set_driver h ;;
  d <- self_driver "get" ;;
  call E (Get d whatsapp_url) (get E d whatsapp_url) ;;
  logger_info "WhatsApp Web opened".

Definition wait_for_login : M World bool :=
  try_except
    (d <- self_driver "find_element" ;;
     qr_element <- call E (WaitUntilPresent d 30 qr_selector)
                          (wait_until_present E d 30 qr_selector) ;;
     d <- self_driver "execute_script" ;;
     qr_base64 <- call E (ExecuteScript d qr_script qr_element)
                         (execute_script E d qr_script qr_element) ;;
     png <- lift (b64decode E qr_base64) ;;
     qr_img <- lift (qrcode_make E png) ;;
     call E (Show qr_img) (show E qr_img) ;;
     logger_info "QR code generated. Please scan with WhatsApp" ;;
     d <- self_driver "find_element" ;;
     call E (WaitUntilPresent d 120 chat_list_selector)
            (wait_until_present E d 120 chat_list_selector) ;;
     set_is_authenticated true ;;
     logger_info "WhatsApp login successful!" ;;
     ret true)
    (fun e =>
       logger_error ("Login failed: " ++ exn_str e) ;;
       ret false).

Definition get_gemini_response (message : string) : M World string :=
  try_except
    (response <- call E (GenerateContent message) (generate_content E message) ;;
     lift (response_text response))
    (fun e =>
       logger_error ("Gemini API error: " ++ exn_str e) ;;
       ret fallback_message).

(** [needle in v] where [v] is the value of [get_attribute]. *)
Definition TypeError : exn :=
  Exception "TypeError" "argument of type 'NoneType' is not iterable".

Definition contained_in (needle : string) (v : option string) : M World bool :=
  match v with
  | Some s => ret (contains needle s)
  | None => raise TypeError
  end.

(** The body of [for chat in unread_chats]. *)
Definition handle_chat (chat : element) : M World unit :=
  call E (Click chat) (click E chat) ;;
  time_sleep 2 ;;
  d <- self_driver "find_elements" ;;
  messages <- call E (FindElements d message_selector)
                     (find_elements E d message_selector) ;;
  match last_element messages with
  | None => ret tt
  | Some last_message =>
      message_text <- call E (Text last_message) (text_of E last_message) ;;
      class <- call E (GetAttribute last_message "class")
                      (get_attribute E last_message "class") ;;
      is_in <- contained_in "message-in" class ;;
      if is_in then
        ai_response <- get_gemini_response message_text ;;
        d <- self_driver "find_element" ;;
        input_box <- call E (FindElement d input_selector)
                            (find_element E d input_selector) ;;
        call E (Click input_box) (click E input_box) ;;
        call E (SendKeys input_box ai_response) (send_keys E input_box ai_response) ;;
        call E (SendKeys input_box newline) (send_keys E input_box newline) ;;
        logger_info ("Message processed: " ++ take 50 message_text ++ "...")
      else ret tt
  end.

(** The [try] block of one pass of the loop. *)
Definition scan_unread : M World unit :=
  d <- self_driver "find_elements" ;;
  unread_chats <- call E (FindElements d unread_selector)
                         (find_elements E d unread_selector) ;;
  for_each unread_chats handle_chat ;;
  time_sleep 5.

(** One pass of [while self.running]: the [try] block and its handler. *)
Definition poll_iteration : M World unit :=
  try_except scan_unread
    (fun e =>
       logger_error ("Error processing messages: " ++ exn_str e) ;;
       time_sleep 10).

(** [process_messages]; [fuel] bounds the number of times the loop
    condition is evaluated, [None] means the loop is still going. *)
Fixpoint process_messages (fuel : nat) (m : machine World)
    : option (result unit * machine World) :=
  match fuel with
  | 0 => None
  | S fuel' =>
      if running (bot m) then
        match poll_iteration m with
        | (Ok _, m') => process_messages fuel' m'
        | (Raise e, m') => Some (Raise e, m')
        end
      else Some (Ok tt, m)
  end.

(** The first half of [handle_chat], up to the point where the direction
    marker has been read: the text and the class of the last message of
    the conversation, or [None] when it shows no message. *)
Definition read_last_message (chat : element)
    : M World (option (string * option string)) :=
  call E (Click chat) (click E chat) ;;
  time_sleep 2 ;;
  d <- self_driver "find_elements" ;;
  messages <- call E (FindElements d message_selector)
                     (find_elements E d message_selector) ;;
  match last_element messages with
  | None => ret None
  | Some last_message =>
      message_text <- call E (Text last_message) (text_of E last_message) ;;
      class <- call E (GetAttribute last_message "class")
                      (get_attribute E last_message "class") ;;
      ret (Some (message_text, class))
  end.

(** The machine after [k] passes of the loop. *)
Fixpoint after_iterations (k : nat) (m : machine World) : machine World :=
  match k with
  | 0 => m
  | S k' => after_iterations k' (snd (poll_iteration m))
  end.

Definition start : M World bool :=
  set_running true ;;
  initialize_driver ;;
  logged_in <- wait_for_login ;;
  if logged_in then
    emit ThreadStart ;;
    logger_info "WhatsApp bot started successfully!" ;;
    ret true
  else ret false.

Definition stop : M World unit :=
  set_running false ;;
  d <- read driver ;;
  match d with
  | Some h => call_total E (Quit h) (quit E h)
  | None => ret tt
  end ;;
  logger_info "WhatsApp bot stopped".

(** *** Routes on the global [bot] *)

Definition home : M World string := ret "WhatsApp Gemini Bot is running!".

Definition start_bot : M World json :=
  started <- start ;;
  if started then
    ret [("status", JStr "success"); ("message", JStr "Bot started successfully")]
  else
    ret [("status", JStr "error"); ("message", JStr "Failed to start bot")].

Definition stop_bot : M World json :=
  stop ;;
  ret [("status", JStr "success"); ("message", JStr "Bot stopped successfully")].

Definition health_check : M World json :=
  is_running <- read running ;;
  ret [("status", JStr "healthy"); ("bot_running", JBool is_running)].

(** [run_bot_in_background], the target of the thread of [__main__]; the
    value of [bot.start()] is dropped. *)
Definition run_bot_in_background : M World unit :=
  time_sleep 10 ;;
  if (lower (environ_get "AUTO_START" "true") =? "true")%string then
    start ;;
    ret tt
  else ret tt.

End Bot.

Arguments set_running {World} v m.
Arguments set_driver {World} h m.
Arguments set_is_authenticated {World} v m.
Arguments self_driver {World} attr m.
Arguments logger_info {World} msg m.
Arguments logger_error {World} msg m.
Arguments contained_in {World} needle v m.
Arguments home {World} m.
Arguments health_check {World} m.

(** ** Vocabulary of the statements *)

Section Vocabulary.

Context {World : Type}.
Variable E : Env World.

(** [keeps I P c]: started on a bot satisfying [I], the computation [c]
    ends on one satisfying [I], whatever its outcome, and every entry it
    adds to the history satisfies [P]. *)
Definition keeps (I : WhatsAppBot -> Prop) (P : WhatsAppBot * event -> Prop)
    {A} (c : M World A) : Prop :=
  forall m, I (bot m) ->
    I (bot (snd (c m))) /\
    exists added, history (snd (c m)) = (history m ++ added)%list /\ Forall P added.

(** The options [initialize_driver] passes to [webdriver.Chrome]. *)
Definition launch_options : chrome_options :=
  {| arguments := ["--no-sandbox"; "--disable-dev-shm-usage"; "--headless"; "--disable-gpu"];
     binary_location := environ_get E "GOOGLE_CHROME_BIN" "/usr/bin/google-chrome" |}.

Definition success (msg : string) : json :=
  [("status", JStr "success"); ("message", JStr msg)].

Definition failure (msg : string) : json :=
  [("status", JStr "error"); ("message", JStr msg)].

Definition healthy (is_running : bool) : json :=
  [("status", JStr "healthy"); ("bot_running", JBool is_running)].

(** The error of the provider for a prompt, if any: either the request
    raises or reading the text of the response does. *)
Definition provider_error (message : string) (w : World) : option exn :=
  match generate_content E message w with
  | (Raise e, _) => Some e
  | (Ok r, _) =>
      match response_text r with
      | Raise e => Some e
      | Ok _ => None
      end
  end.

(** What [start] still has to do once [webdriver.Chrome] has returned and
    the handle is stored: the rest of [initialize_driver], the handshake
    and the thread start. *)
Definition start_after_launch : M World bool :=
  (d <- self_driver "get" ;;
   call E (Get d whatsapp_url) (get E d whatsapp_url) ;;
   logger_info "WhatsApp Web opened") ;;
  logged_in <- wait_for_login E ;;
  if logged_in then
    emit ThreadStart ;;
    logger_info "WhatsApp bot started successfully!" ;;
    ret true
  else ret false.

(** Field updates of the bot object. *)
Definition with_running (v : bool) (b : WhatsAppBot) : WhatsAppBot :=
  {| driver := driver b; is_authenticated := is_authenticated b; running := v |}.

Definition with_driver (h : handle) (b : WhatsAppBot) : WhatsAppBot :=
  {| driver := Some h; is_authenticated := is_authenticated b; running := running b |}.

(** Calls that belong to a reply: the completion request and the
    interaction with the input control. *)
Definition reply_event (ev : event) : bool :=
  match ev with
  | GenerateContent _ | FindElement _ _ | SendKeys _ _ => true
  | _ => false
  end.

End Vocabulary.

(** ** A small simulated page and provider

    A concrete [Env], used to run the methods: a page with a list of
    unread conversations, a provider given as a function, and optionally
    a request thread that runs [stop] at a given time. *)

Module Sim.

Record message : Type :=
  { msg_el : element; msg_text : string; msg_class : option string }.

Record conversation : Type :=
  { chat_el : element; chat_messages : list message }.

Record scenario : Type :=
  { qr_appears : bool;        (* the login canvas shows up within 30 s *)
    scan_completes : bool;    (* the chat list shows up within 120 s *)
    gemini : string -> result response;
    unread : list conversation;
    stop_at : option nat }.   (* another thread runs [stop] at that time *)

Record page : Type :=
  { clock : nat;               (* seconds spent sleeping or waiting *)
    sessions : nat;            (* Chrome objects created: handles [0 .. sessions-1] *)
    closed : list handle;      (* handles that were quit *)
    opened : option element;   (* the conversation open in the page *)
    seen : list element;       (* conversations no longer marked unread *)
    typed : list string }.     (* keys received by the input box *)

Definition blank : page :=
  {| clock := 0; sessions := 0; closed := []; opened := None; seen := []; typed := [] |}.

Definition qr_canvas : element := 900.
Definition chat_list : element := 901.
Definition input_box : element := 902.

Definition TimeoutException : exn := Exception "TimeoutException" "Message: ".
Definition InvalidSessionId : exn :=
  Exception "InvalidSessionIdException" "Message: invalid session id".
Definition NoSuchElement : exn :=
  Exception "NoSuchElementException" "Message: no such element".
Definition StaleElement : exn :=
  Exception "StaleElementReferenceException" "Message: stale element reference".

Definition tick (n : nat) (w : page) : page :=
  {| clock := clock w + n; sessions := sessions w; closed := closed w;
     opened := opened w; seen := seen w; typed := typed w |}.

Section Scenario.

Variable sc : scenario.

Definition stopped (w : page) : bool :=
  match stop_at sc with
  | Some t => (t <=? clock w)%nat
  | None => false
  end.

Definition alive (h : handle) (w : page) : bool :=
  (h <? sessions w)%nat && negb (existsb (Nat.eqb h) (closed w)) && negb (stopped w).

Definition all_messages : list message :=
  flat_map chat_messages (unread sc).

Definition find_message (el : element) : option message :=
  find (fun msg => (msg_el msg =? el)%nat) all_messages.

Definition messages_of (chat : element) : list element :=
  match find (fun c => (chat_el c =? chat)%nat) (unread sc) with
  | Some c => map msg_el (chat_messages c)
  | None => []
  end.

Definition sim_chrome (o : chrome_options) (log : string) (w : page)
    : result handle * page :=
  (Ok (sessions w),
   {| clock := clock w; sessions := S (sessions w); closed := closed w;
      opened := None; seen := seen w; typed := typed w |}).

Definition sim_quit (h : handle) (w : page) : page :=
  {| clock := clock w; sessions := sessions w; closed := h :: closed w;
     opened := opened w; seen := seen w; typed := typed w |}.

Definition sim_wait (h : handle) (timeout : nat) (css : string) (w : page)
    : result element * page :=
  if negb (alive h w) then (Raise InvalidSessionId, w)
  else if (css =? qr_selector)%string then
    if qr_appears sc then (Ok qr_canvas, w) else (Raise TimeoutException, tick timeout w)
  else if (css =? chat_list_selector)%string then
    if scan_completes sc then (Ok chat_list, w) else (Raise TimeoutException, tick timeout w)
  else (Raise TimeoutException, tick timeout w).

Definition sim_find_elements (h : handle) (css : string) (w : page)
    : result (list element) * page :=
  if negb (alive h w) then (Raise InvalidSessionId, w)
  else if (css =? unread_selector)%string then
    (Ok (filter (fun c => negb (existsb (Nat.eqb c) (seen w)))
                (map chat_el (unread sc))), w)
  else if (css =? message_selector)%string then
    (Ok match opened w with Some c => messages_of c | None => [] end, w)
  else (Ok [], w).

Definition sim_find_element (h : handle) (css : string) (w : page)
    : result element * page :=
  if negb (alive h w) then (Raise InvalidSessionId, w)
  else if (css =? input_selector)%string then
    match opened w with
    | Some _ => (Ok input_box, w)
    | None => (Raise NoSuchElement, w)
    end
  else (Raise NoSuchElement, w).

Definition sim_click (el : element) (w : page) : result unit * page :=
  if stopped w then (Raise InvalidSessionId, w)
  else if (el =? input_box)%nat then (Ok tt, w)
  else (Ok tt,
        {| clock := clock w; sessions := sessions w; closed := closed w;
           opened := Some el; seen := el :: seen w; typed := typed w |}).

Definition sim_text (el : element) (w : page) : result string * page :=
  match find_message el with
  | Some msg => (Ok (msg_text msg), w)
  | None => (Raise StaleElement, w)
  end.

Definition sim_get_attribute (el : element) (name : string) (w : page)
    : result (option string) * page :=
  match find_message el with
  | Some msg => (Ok (if (name =? "class")%string then msg_class msg else None), w)
  | None => (Raise StaleElement, w)
  end.

Definition sim_send_keys (el : element) (keys : string) (w : page)
    : result unit * page :=
  if stopped w then (Raise InvalidSessionId, w)
  else (Ok tt,
        {| clock := clock w; sessions := sessions w; closed := closed w;
           opened := opened w; seen := seen w; typed := typed w ++ [keys] |}).

Definition sim_other_threads (w : page) (b : WhatsAppBot) : WhatsAppBot :=
  if stopped w then
    {| driver := driver b; is_authenticated := is_authenticated b; running := false |}
  else b.

Definition env : Env page :=
  {| environ := fun _ => None;
     chrome := sim_chrome;
     get := fun _ _ w => (Ok tt, w);
     quit := sim_quit;
     wait_until_present := sim_wait;
     execute_script := fun _ _ _ w => (Ok "aGVsbG8=", w);
     b64decode := fun s => Ok s;
     qrcode_make := fun s => Ok (QRImage s);
     show := fun _ w => (Ok tt, w);
     find_elements := sim_find_elements;
     find_element := sim_find_element;
     click := sim_click;
     text_of := sim_text;
     get_attribute := sim_get_attribute;
     send_keys := sim_send_keys;
     sleep := tick;
     generate_content := fun prompt w => (gemini sc prompt, w);
     other_threads := sim_other_threads |}.

End Scenario.

(** A machine around a bot object, before any call. *)
Definition machine_of (b : WhatsAppBot) (w : page) : machine page :=
  {| bot := b; world := w; history := [] |}.

(** The process right after [bot = WhatsAppBot()]. *)
Definition fresh : machine page := machine_of init_bot blank.

(** A bot whose driver is session [0] of a page that is already open. *)
Definition logged_in (is_running : bool) : machine page :=
  machine_of {| driver := Some 0; is_authenticated := true; running := is_running |}
             {| clock := 0; sessions := 1; closed := []; opened := None;
                seen := []; typed := [] |}.

Definition echo (prompt : string) : result response :=
  Ok (Response (Ok ("You said: " ++ prompt))).

Definition quota_exceeded (prompt : string) : result response :=
  Raise (Exception "ResourceExhausted" "429 quota exceeded").

(** The login canvas never appears. *)
Definition no_challenge : scenario :=
  {| qr_appears := false; scan_completes := false; gemini := echo;
     unread := []; stop_at := None |}.

(** The operator scans the code; one conversation ends with [last]. *)
Definition one_chat (provider : string -> result response) (last : message)
    (stop : option nat) : scenario :=
  {| qr_appears := true; scan_completes := true; gemini := provider;
     unread := [ {| chat_el := 10;
                    chat_messages :=
                      [ {| msg_el := 100; msg_text := "earlier";
                           msg_class := Some "message-out focusable" |};
                        last ] |} ];
     stop_at := stop |}.

Definition hello_in : message :=
  {| msg_el := 101; msg_text := "Hello"; msg_class := Some "message-in focusable" |}.

Definition reply_out : message :=
  {| msg_el := 101; msg_text := "On my way"; msg_class := Some "message-out focusable" |}.

(** [E] with the environment variables [vars]. *)
Definition with_environ (vars : string -> option string) (E : Env page) : Env page :=
  {| environ := vars;
     chrome := chrome E;
     get := get E;
     quit := quit E;
     wait_until_present := wait_until_present E;
     execute_script := execute_script E;
     b64decode := b64decode E;
     qrcode_make := qrcode_make E;
     show := show E;
     find_elements := find_elements E;
     find_element := find_element E;
     click := click E;
     text_of := text_of E;
     get_attribute := get_attribute E;
     send_keys := send_keys E;
     sleep := sleep E;
     generate_content := generate_content E;
     other_threads := other_threads E |}.

Definition setenv (key value : string) : string -> option string :=
  fun k => if (k =? key)%string then Some value else None.

(** [E] on a host where Chrome cannot be launched. *)
Definition SessionNotCreated : exn :=
  Exception "SessionNotCreatedException" "Message: session not created".

Definition without_chrome (E : Env page) : Env page :=
  {| environ := environ E;
     chrome := fun _ _ w => (Raise SessionNotCreated, w);
     get := get E;
     quit := quit E;
     wait_until_present := wait_until_present E;
     execute_script := execute_script E;
     b64decode := b64decode E;
     qrcode_make := qrcode_make E;
     show := show E;
     find_elements := find_elements E;
     find_element := find_element E;
     click := click E;
     text_of := text_of E;
     get_attribute := get_attribute E;
     send_keys := send_keys E;
     sleep := sleep E;
     generate_content := generate_content E;
     other_threads := other_threads E |}.

(** [E] on a host without network: pages do not load. *)
Definition Disconnected : exn :=
  Exception "WebDriverException" "Message: unknown error: net::ERR_INTERNET_DISCONNECTED".

Definition offline (E : Env page) : Env page :=
  {| environ := environ E;
     chrome := chrome E;
     get := fun _ _ w => (Raise Disconnected, w);
     quit := quit E;
     wait_until_present := wait_until_present E;
     execute_script := execute_script E;
     b64decode := b64decode E;
     qrcode_make := qrcode_make E;
     show := show E;
     find_elements := find_elements E;
     find_element := find_element E;
     click := click E;
     text_of := text_of E;
     get_attribute := get_attribute E;
     send_keys := send_keys E;
     sleep := sleep E;
     generate_content := generate_content E;
     other_threads := other_threads E |}.

(** A last message whose element has no [class] attribute. *)
Definition photo : message :=
  {| msg_el := 101; msg_text := "photo"; msg_class := None |}.

(** Two unread conversations; the first ends with [photo]. *)
Definition two_chats : scenario :=
  {| qr_appears := true; scan_completes := true; gemini := echo;
     unread := [ {| chat_el := 10; chat_messages := [photo] |};
                 {| chat_el := 20;
                    chat_messages :=
                      [ {| msg_el := 201; msg_text := "Hello";
                           msg_class := Some "message-in" |} ] |} ];
     stop_at := None |}.

(** One unread conversation that shows no message. *)
Definition empty_chat : scenario :=
  {| qr_appears := true; scan_completes := true; gemini := echo;
     unread := [ {| chat_el := 30; chat_messages := [] |} ];
     stop_at := None |}.

(** The four pages the methods are run on below. *)
Definition quiet_page : Env page := env (one_chat echo hello_in None).
Definition failing_provider : Env page := env (one_chat quota_exceeded hello_in None).
Definition outgoing_page : Env page := env (one_chat echo reply_out None).
Definition timeout_page : Env page := env no_challenge.

(** Further pages. *)
Definition unmarked_page : Env page := env (one_chat echo photo None).
Definition two_chats_page : Env page := env two_chats.
Definition empty_chat_page : Env page := env empty_chat.

End Sim.

(** ** What a computation does to the bot object and to the history *)

Section Logic.

Context {World : Type}.
Variable E : Env World.

Variable I : WhatsAppBot -> Prop.
Variable P : WhatsAppBot * event -> Prop.

Lemma keeps_ret {A} (a : A) : keeps I P (ret (World := World) a).
Proof.
  intros m Hm; split; [exact Hm|].
  exists []; simpl; now rewrite app_nil_r.
Qed.

Lemma keeps_raise {A} (e : exn) : keeps I P (raise (World := World) (A := A) e).
Proof.
  intros m Hm; split; [exact Hm|].
  exists []; simpl; now rewrite app_nil_r.
Qed.

Lemma keeps_lift {A} (r : result A) : keeps I P (lift (World := World) r).
Proof.
  intros m Hm; split; [exact Hm|].
  exists []; simpl; now rewrite app_nil_r.
Qed.

Lemma keeps_read {A} (f : WhatsAppBot -> A) : keeps I P (read (World := World) f).
Proof.
  intros m Hm; split; [exact Hm|].
  exists []; simpl; now rewrite app_nil_r.
Qed.

Lemma keeps_write (upd : WhatsAppBot -> WhatsAppBot) :
  (forall b, I b -> I (upd b)) -> keeps I P (write (World := World) upd).
Proof.
  intros Hupd m Hm; split; [now apply Hupd|].
  exists []; simpl; now rewrite app_nil_r.
Qed.

Lemma keeps_emit (ev : event) :
  (forall b, I b -> P (b, ev)) -> keeps I P (emit (World := World) ev).
Proof.
  intros Hev m Hm; split; [exact Hm|].
  exists [(bot m, ev)]; split; [reflexivity|].
  constructor; [now apply Hev | constructor].
Qed.

Lemma keeps_call {A} (ev : event) (op : World -> result A * World) :
  (forall w b, I b -> I (other_threads E w b)) ->
  (forall b, I b -> P (b, ev)) ->
  keeps I P (call E ev op).
Proof.
  intros Hot Hev m Hm. unfold call.
  destruct (op (world m)) as [r w]; simpl; split; [now apply Hot|].
  exists [(bot m, ev)]; split; [reflexivity|].
  constructor; [now apply Hev | constructor].
Qed.

Lemma keeps_bind {A B} (c : M World A) (k : A -> M World B) :
  keeps I P c -> (forall a, keeps I P (k a)) -> keeps I P (bind c k).
Proof.
  intros Hc Hk m Hm. unfold bind.
  destruct (Hc m Hm) as [Hi [added [Hh Hp]]].
  destruct (c m) as [[a|e] m1]; simpl in *.
  - destruct (Hk a m1 Hi) as [Hi' [added' [Hh' Hp']]].
    split; [exact Hi'|].
    exists (added ++ added')%list; split.
    + now rewrite Hh', Hh, app_assoc.
    + now apply Forall_app.
  - split; [exact Hi|]. now exists added.
Qed.

Lemma keeps_try_except {A} (c : M World A) (h : exn -> M World A) :
  keeps I P c -> (forall e, keeps I P (h e)) -> keeps I P (try_except c h).
Proof.
  intros Hc Hh m Hm. unfold try_except.
  destruct (Hc m Hm) as [Hi [added [Heq Hp]]].
  destruct (c m) as [[a|e] m1]; simpl in *.
  - split; [exact Hi|]. now exists added.
  - destruct (Hh e m1 Hi) as [Hi' [added' [Heq' Hp']]].
    split; [exact Hi'|].
    exists (added ++ added')%list; split.
    + now rewrite Heq', Heq, app_assoc.
    + now apply Forall_app.
Qed.

Lemma keeps_for_each {A} (xs : list A) (body : A -> M World unit) :
  (forall x, keeps I P (body x)) -> keeps I P (for_each xs body).
Proof.
  intros Hbody; induction xs as [|x rest IH]; simpl.
  - apply keeps_ret.
  - apply keeps_bind; [apply Hbody | intros _; exact IH].
Qed.

End Logic.

Create HintDb bot.

#[global] Hint Unfold self_driver logger_info logger_error time_sleep call_total
  set_driver set_is_authenticated set_running contained_in : bot.

Ltac keeps_tac :=
  repeat first
    [ apply keeps_bind; [| intro]
    | apply keeps_try_except; [| intro]
    | apply keeps_for_each; intro
    | apply keeps_ret
    | apply keeps_raise
    | apply keeps_lift
    | apply keeps_read
    | apply keeps_write
    | apply keeps_emit
    | apply keeps_call
    | match goal with
      | |- keeps _ _ (match ?x with _ => _ end) => destruct x
      end
    | progress autounfold with bot ].

(** ** The routes and the lifecycle *)

Section Lifecycle.

Context {World : Type}.
Variable E : Env World.

Lemma bot_eta (b : WhatsAppBot) :
  {| driver := driver b; is_authenticated := is_authenticated b; running := running b |} = b.
Proof. now destruct b. Qed.

Lemma stop_idle_world (m : machine World) :
  driver (bot m) = None -> world (snd (stop_bot E m)) = world m.
Proof.
  intros Hd.
  unfold stop_bot, stop, bind, set_running, write, read, logger_info, emit, ret; simpl.
  now rewrite Hd.
Qed.

Lemma get_gemini_response_total (message : string) (m : machine World) :
  exists reply, fst (get_gemini_response E message m) = Ok reply.
Proof.
  unfold get_gemini_response, try_except, bind, call, lift, logger_error, emit, ret.
  destruct (generate_content E message (world m)) as [[[[t|e']]|e] w]; simpl; eauto.
Qed.

Lemma bind_eq {A B} (c : M World A) (k : A -> M World B) (m : machine World) :
  bind c k m = match c m with
               | (Ok a, m1) => k a m1
               | (Raise e, m1) => (Raise e, m1)
               end.
Proof. reflexivity. Qed.

Lemma start_eq (m : machine World) :
  start E m =
  let b0 := with_running true (bot m) in
  match chrome E (launch_options E) devnull (world m) with
  | (Ok h, w) =>
      start_after_launch E
        {| bot := with_driver h (other_threads E w b0);
           world := w;
           history := (history m ++ [(b0, Chrome (launch_options E) devnull)])%list |}
  | (Raise e, w) =>
      (Raise e,
       {| bot := other_threads E w b0;
          world := w;
          history := (history m ++ [(b0, Chrome (launch_options E) devnull)])%list |})
  end.
Proof.
  unfold start, start_after_launch, initialize_driver, launch_options.
  cbv zeta. unfold bind at 1 2 3. 
  unfold set_running, set_driver, write, call, record. simpl.
  destruct (chrome E _ devnull (world m)) as [[h|e] w]; simpl.
  all: reflexivity.
Qed.

Lemma prefix_keeps_running :
  Quiet E ->
  keeps (fun b => running b = true)
        (fun p => running (fst p) = true /\ snd p <> ThreadStart)
        (d <- self_driver "get" ;;
         call E (Get d whatsapp_url) (get E d whatsapp_url) ;;
         logger_info "WhatsApp Web opened").
Proof.
  intros HQ. keeps_tac; intros; rewrite ?HQ; simpl; auto; split; auto; discriminate.
Qed.

Lemma wait_for_login_keeps_running :
  Quiet E ->
  keeps (fun b => running b = true)
        (fun p => running (fst p) = true /\ snd p <> ThreadStart)
        (wait_for_login E).
Proof.
  intros HQ. unfold wait_for_login.
  keeps_tac; intros; rewrite ?HQ; simpl; auto; split; auto; discriminate.
Qed.

Lemma start_after_launch_running (m : machine World) :
  Quiet E -> running (bot m) = true ->
  exists added,
    history (snd (start_after_launch E m)) = (history m ++ added)%list /\
    Forall (fun p => running (fst p) = true) added /\
    running (bot (snd (start_after_launch E m))) = true /\
    (fst (start_after_launch E m) = Ok false -> ~ In ThreadStart (map snd added)).
Proof.
  intros HQ Hm. unfold start_after_launch. rewrite bind_eq.
  destruct (prefix_keeps_running HQ m Hm) as [Hr1 [a1 [Hh1 Hp1]]].
  destruct ((d <- self_driver _ ;; _) m) as [[u|e] m1]; simpl in Hr1, Hh1.
  - rewrite bind_eq.
    destruct (wait_for_login_keeps_running HQ m1 Hr1) as [Hr2 [a2 [Hh2 Hp2]]].
    destruct (wait_for_login E m1) as [[[|]|e] m2]; simpl in Hr2, Hh2.
    + exists (a1 ++ a2 ++ [(bot m2, ThreadStart);
                            (bot m2, LogInfo "WhatsApp bot started successfully!")])%list.
      repeat (unfold bind, emit, logger_info, ret, record; simpl).
      rewrite Hh2, Hh1, <- !app_assoc; simpl.
      repeat split; auto; try (intros Hf; discriminate Hf).
      apply Forall_app; split; [|apply Forall_app; split].
      * eapply Forall_impl; [|exact Hp1]; now intros p [Hp _].
      * eapply Forall_impl; [|exact Hp2]; now intros p [Hp _].
      * repeat constructor; exact Hr2.
    + exists (a1 ++ a2)%list; simpl.
      rewrite Hh2, Hh1, <- app_assoc.
      repeat split; auto.
      * apply Forall_app; split;
          (eapply Forall_impl; [|eassumption]; now intros p [Hp _]).
      * intros _ Hin. apply in_map_iff in Hin as [p [Hev Hin]].
        apply in_app_or in Hin as [Hin|Hin];
          [eapply Forall_forall in Hp1 | eapply Forall_forall in Hp2]; eauto;
          now destruct Hp1 + destruct Hp2.
    + exists (a1 ++ a2)%list; simpl.
      rewrite Hh2, Hh1, <- app_assoc.
      repeat split; auto; try (intros Hf; discriminate Hf).
      apply Forall_app; split;
        (eapply Forall_impl; [|eassumption]; now intros p [Hp _]).
  - exists a1; simpl. repeat split; auto; try (intros Hf; discriminate Hf).
    eapply Forall_impl; [|exact Hp1]; now intros p [Hp _].
Qed.

Lemma start_after_launch_keeps_driver (h : handle) :
  Quiet E ->
  keeps (fun b => driver b = Some h) (fun _ => True) (start_after_launch E).
Proof.
  intros HQ. unfold start_after_launch, wait_for_login.
  keeps_tac; intros; rewrite ?HQ; simpl; auto.
Qed.

Lemma start_after_launch_never_quits :
  keeps (fun _ => True) (fun p => forall h, snd p <> Quit h) (start_after_launch E).
Proof.
  unfold start_after_launch, wait_for_login.
  keeps_tac; intros; simpl; auto; discriminate.
Qed.

Lemma start_bot_eq (m : machine World) :
  start_bot E m =
  match start E m with
  | (Ok true, m') => (Ok (success "Bot started successfully"), m')
  | (Ok false, m') => (Ok (failure "Failed to start bot"), m')
  | (Raise e, m') => (Raise e, m')
  end.
Proof.
  unfold start_bot. rewrite bind_eq.
  now destruct (start E m) as [[[|]|e] m'].
Qed.

Lemma stop_spec (m : machine World) :
  Quiet E ->
  fst (stop E m) = Ok tt /\
  bot (snd (stop E m)) = with_running false (bot m) /\
  events (snd (stop E m)) =
    (events m ++
     match driver (bot m) with Some h => [Quit h] | None => [] end ++
     [LogInfo "WhatsApp bot stopped"])%list.
Proof.
  intros HQ.
  unfold stop, bind, set_running, write, read, call_total, call,
    logger_info, emit, ret, events, record, with_running; simpl.
  destruct (driver (bot m)) as [h|] eqn:Hd; simpl; rewrite ?HQ; simpl;
    rewrite ?map_app, <- ?app_assoc; simpl; auto.
Qed.

Lemma snapshots_running (added : list (WhatsAppBot * event)) (b : WhatsAppBot) :
  Forall (fun p => running (fst p) = true) added ->
  In b (map fst added) -> running b = true.
Proof.
  intros Hall Hin. apply in_map_iff in Hin as [p [<- Hin]].
  now apply (proj1 (Forall_forall _ _) Hall).
Qed.

Lemma start_running (m : machine World) :
  Quiet E ->
  exists added,
    history (snd (start E m)) = (history m ++ added)%list /\
    hd_error (map snd added) = Some (Chrome (launch_options E) devnull) /\
    Forall (fun p => running (fst p) = true) added /\
    (fst (start E m) = Ok false ->
     running (bot (snd (start E m))) = true /\ ~ In ThreadStart (map snd added)).
Proof.
  intros HQ. rewrite start_eq; cbv zeta.
  destruct (chrome E (launch_options E) devnull (world m)) as [[h|e] w].
  - match goal with |- context [start_after_launch E ?m1] => set (m1' := m1) end.
    assert (Hrun : running (bot m1') = true) by (simpl; now rewrite HQ).
    destruct (start_after_launch_running m1' HQ Hrun) as [a [Hh [Hp [Hr Hf]]]].
    exists ((with_running true (bot m), Chrome (launch_options E) devnull) :: a).
    rewrite Hh; simpl. rewrite <- app_assoc; simpl.
    split; [reflexivity|]. split; [reflexivity|]. split; [now constructor|].
    intros Hfalse; split; [exact Hr|].
    intros [Hin|Hin]; [discriminate|now apply Hf].
  - exists [(with_running true (bot m), Chrome (launch_options E) devnull)]; simpl.
    split; [reflexivity|]. split; [reflexivity|]. split; [now repeat constructor|].
    intros Hfalse; discriminate Hfalse.
Qed.

(** C1: what the code does after a handshake that does not complete.
    [POST /start] answers with the error body, but [running], set on the
    first line of [start], is still set afterwards, and [GET /health]
    reports a running bot. *)
Theorem start_bot_failure_leaves_running_set (m : machine World) :
  Quiet E ->
  fst (start E m) = Ok false ->
  fst (start_bot E m) = Ok (failure "Failed to start bot") /\
  running (bot (snd (start_bot E m))) = true /\
  fst (health_check (snd (start_bot E m))) = Ok (healthy true).
Proof.
  intros HQ Hf. destruct (start_running m HQ) as [added [_ [_ [_ Hfail]]]].
  destruct (Hfail Hf) as [Hr _].
  rewrite start_bot_eq. destruct (start E m) as [[[|]|e] m']; try discriminate.
  simpl in *. now rewrite Hr.
Qed.

(** C4 (amended): when the browser launch succeeds, [start] stores the
    handle it returned in [driver]; [stop] quits the browser behind the
    handle, when there is one, and leaves [driver] as it was. *)
Theorem driver_set_by_start_kept_by_stop
    (m : machine World) (h : handle) (w : World) :
  Quiet E ->
  chrome E (launch_options E) devnull (world m) = (Ok h, w) ->
  driver (bot (snd (start E m))) = Some h /\
  forall m0,
    driver (bot (snd (stop E m0))) = driver (bot m0) /\
    events (snd (stop E m0)) =
      (events m0 ++
       match driver (bot m0) with Some h0 => [Quit h0] | None => [] end ++
       [LogInfo "WhatsApp bot stopped"])%list.
Proof.
  intros HQ Hlaunch; split.
  - rewrite start_eq; cbv zeta; rewrite Hlaunch.
    now apply (start_after_launch_keeps_driver h HQ).
  - intros m0. destruct (stop_spec m0 HQ) as [_ [Hb Hev]].
    now rewrite Hb, Hev.
Qed.

(** C5: when [running] is false, [stop] leaves the bot object as it is
    and [POST /stop] answers with the success body. *)
Theorem stop_when_not_running (m : machine World) :
  Quiet E ->
  running (bot m) = false ->
  bot (snd (stop_bot E m)) = bot m /\
  fst (stop_bot E m) = Ok (success "Bot stopped successfully").
Proof.
  intros HQ Hr. destruct (stop_spec m HQ) as [Hok [Hb _]].
  unfold stop_bot. rewrite bind_eq.
  destruct (stop E m) as [[[]|e] m']; simpl in *; [|discriminate].
  split; [|reflexivity].
  rewrite Hb. unfold with_running. rewrite <- Hr. apply bot_eta.
Qed.

(** C8: [GET /health] answers with the current value of [running] and
    leaves the machine (bot object, world and history) as it is. *)
Theorem health_check_reads_running (m : machine World) :
  health_check m = (Ok (healthy (running (bot m))), m).
Proof. reflexivity. Qed.

(** C9: [start] sets [running] before it launches the driver and never
    resets it.  Every call [start] makes, the launch first, is made with
    [running] set, so a health query answered during any of them reports
    [bot_running = true]; when [start] returns failure, no thread was
    started and the health query still reports [bot_running = true]. *)
Theorem failed_start_reports_running (m : machine World) :
  Quiet E ->
  exists added,
    history (snd (start E m)) = (history m ++ added)%list /\
    hd_error (map snd added) = Some (Chrome (launch_options E) devnull) /\
    (forall m1 : machine World, In (bot m1) (map fst added) ->
                fst (health_check m1) = Ok (healthy true)) /\
    (fst (start E m) = Ok false ->
     ~ In ThreadStart (map snd added) /\
     fst (health_check (snd (start E m))) = Ok (healthy true)).
Proof.
  intros HQ. destruct (start_running m HQ) as [added [Hh [Hhd [Hall Hfail]]]].
  exists added; repeat split; auto.
  - intros m1 Hin. simpl. now rewrite (snapshots_running added (bot m1) Hall Hin).
  - now apply Hfail.
  - simpl. destruct (Hfail H) as [Hr _]. now rewrite Hr.
Qed.

(** C10: when a driver handle is already stored, [start] launches another
    browser while the old handle is still in place, makes no [quit] call
    at all, and ends with the new handle stored. *)
Theorem start_again_replaces_driver
    (m : machine World) (h0 h1 : handle) (w : World) :
  driver (bot m) = Some h0 ->
  chrome E (launch_options E) devnull (world m) = (Ok h1, w) ->
  exists b0 rest,
    history (snd (start E m)) =
      (history m ++ (b0, Chrome (launch_options E) devnull) :: rest)%list /\
    driver b0 = Some h0 /\
    (forall h, ~ In (Quit h) (Chrome (launch_options E) devnull :: map snd rest)) /\
    (Quiet E -> driver (bot (snd (start E m))) = Some h1).
Proof.
  intros Hd Hlaunch. rewrite start_eq; cbv zeta; rewrite Hlaunch.
  match goal with |- context [start_after_launch E ?m1] => set (m1' := m1) end.
  destruct (start_after_launch_never_quits m1' I) as [_ [rest [Hh Hp]]].
  exists (with_running true (bot m)), rest; repeat split.
  - rewrite Hh; simpl. now rewrite <- app_assoc.
  - exact Hd.
  - intros h [Hin|Hin]; [discriminate|].
    apply in_map_iff in Hin as [p [Hev Hin]].
    exact (proj1 (Forall_forall _ _) Hp p Hin h Hev).
  - intros HQ. now apply (start_after_launch_keeps_driver h1 HQ).
Qed.


(** C2 (amended): when the provider call raises, [get_gemini_response]
    returns the fixed fallback string of the source, "I'm having trouble
    connecting to the AI service. Please try again later.", after logging
    the error; the exception does not reach the caller. *)
Theorem get_gemini_response_absorbs_errors
    (message : string) (m : machine World) (e : exn) :
  provider_error E message (world m) = Some e ->
  fst (get_gemini_response E message m) = Ok fallback_message /\
  events (snd (get_gemini_response E message m)) =
    (events m ++ [GenerateContent message;
                  LogError ("Gemini API error: " ++ exn_str e)])%list.
Proof.
  unfold provider_error, get_gemini_response, try_except, bind, call, lift,
    logger_error, emit, ret, events, record.
  destruct (generate_content E message (world m)) as [[[[t|e']]|e0] w]; simpl;
    intros He; inversion He; subst;
    rewrite ?map_app, <- ?app_assoc; simpl; auto.
Qed.

End Lifecycle.

(** ** The polling loop *)

Section Polling.

Context {World : Type}.
Variable E : Env World.

Lemma read_then_handle (chat : element) (m : machine World) :
  handle_chat E chat m =
  match read_last_message E chat m with
  | (Ok None, m1) => (Ok tt, m1)
  | (Ok (Some (message_text, class)), m1) =>
      (is_in <- contained_in "message-in" class ;;
       if is_in then
         ai_response <- get_gemini_response E message_text ;;
         d <- self_driver "find_element" ;;
         input_box <- call E (FindElement d input_selector)
                             (find_element E d input_selector) ;;
         call E (Click input_box) (click E input_box) ;;
         call E (SendKeys input_box ai_response) (send_keys E input_box ai_response) ;;
         call E (SendKeys input_box newline) (send_keys E input_box newline) ;;
         logger_info ("Message processed: " ++ take 50 message_text ++ "...")
       else ret tt) m1
  | (Raise e, m1) => (Raise e, m1)
  end.
Proof.
  unfold handle_chat, read_last_message, time_sleep, call_total, self_driver.
  unfold bind, call, read, ret, raise; simpl.
  destruct (click E chat (world m)) as [[[]|e] w1]; simpl; [|reflexivity].
  destruct (driver (other_threads E (sleep E 2 w1) (other_threads E w1 (bot m))))
    as [d|]; simpl; [|reflexivity].
  destruct (find_elements E d message_selector (sleep E 2 w1)) as [[messages|e] w2];
    simpl; [|reflexivity].
  destruct (last_element messages) as [last_message|]; simpl; [|reflexivity].
  destruct (text_of E last_message w2) as [[message_text|e] w3]; simpl; [|reflexivity].
  destruct (get_attribute E last_message "class" w3) as [[class|e] w4]; simpl;
    reflexivity.
Qed.

Lemma read_last_message_events (chat : element) (m m1 : machine World)
    (message_text : string) (class : option string) :
  read_last_message E chat m = (Ok (Some (message_text, class)), m1) ->
  exists d last_message,
    events m1 =
      (events m ++ [Click chat; Sleep 2; FindElements d message_selector;
                    Text last_message; GetAttribute last_message "class"])%list.
Proof.
  unfold read_last_message, time_sleep, call_total, self_driver.
  unfold bind, call, read, ret, raise, events, record; simpl.
  destruct (click E chat (world m)) as [[[]|e] w1]; simpl; [|discriminate].
  destruct (driver (other_threads E (sleep E 2 w1) (other_threads E w1 (bot m))))
    as [d|]; simpl; [|discriminate].
  destruct (find_elements E d message_selector (sleep E 2 w1)) as [[messages|e] w2];
    simpl; [|discriminate].
  destruct (last_element messages) as [last_message|]; simpl; [|discriminate].
  destruct (text_of E last_message w2) as [[text|e] w3]; simpl; [|discriminate].
  destruct (get_attribute E last_message "class" w3) as [[cls|e] w4]; simpl;
    [|discriminate].
  intros Heq; inversion Heq; subst; simpl.
  exists d, last_message. now rewrite !map_app, <- !app_assoc.
Qed.

Lemma direction_outgoing (class : string) :
  direction_of class = outgoing <-> contains "message-in" class = false.
Proof.
  unfold direction_of; destruct (contains "message-in" class); split;
    intros H; congruence.
Qed.

Lemma direction_incoming (class : string) :
  direction_of class = incoming <-> contains "message-in" class = true.
Proof.
  unfold direction_of; destruct (contains "message-in" class); split;
    intros H; congruence.
Qed.

(** C6: when the last message of an unread conversation is marked
    outgoing, the pass is done with the conversation as soon as it has read
    the marker: the calls made for it stop there, and none of them is a
    completion request or an interaction with the input control. *)
Theorem outgoing_last_message_gets_no_reply
    (chat : element) (m m1 : machine World) (message_text class : string) :
  read_last_message E chat m = (Ok (Some (message_text, Some class)), m1) ->
  direction_of class = outgoing ->
  handle_chat E chat m = (Ok tt, m1) /\
  exists added,
    events m1 = (events m ++ added)%list /\
    forallb (fun ev => negb (reply_event ev)) added = true.
Proof.
  intros Hread Hout. apply direction_outgoing in Hout. split.
  - rewrite read_then_handle, Hread.
    unfold bind, contained_in, ret. now rewrite Hout.
  - destruct (read_last_message_events _ _ _ _ _ Hread) as [d [l Hev]].
    eexists; split; [exact Hev | reflexivity].
Qed.





Lemma poll_iteration_returns (m : machine World) :
  fst (poll_iteration E m) = Ok tt.
Proof.
  unfold poll_iteration, try_except.
  destruct (scan_unread E m) as [[[]|e] m1]; reflexivity.
Qed.

Lemma poll_iteration_recovers (m m1 : machine World) (e : exn) :
  scan_unread E m = (Raise e, m1) ->
  poll_iteration E m =
    (Ok tt,
     {| bot := other_threads E (sleep E 10 (world m1)) (bot m1);
        world := sleep E 10 (world m1);
        history :=
          (history m1 ++
           [(bot m1, LogError ("Error processing messages: " ++ exn_str e));
            (bot m1, Sleep 10)])%list |}).
Proof.
  intros Hscan. unfold poll_iteration, try_except. rewrite Hscan.
  unfold bind, logger_error, emit, time_sleep, call_total, call, record; simpl.
  now rewrite <- app_assoc.
Qed.

Lemma process_messages_continue (fuel : nat) (m : machine World) :
  running (bot m) = true ->
  process_messages E (S fuel) m = process_messages E fuel (snd (poll_iteration E m)).
Proof.
  intros Hr; simpl; rewrite Hr.
  pose proof (poll_iteration_returns m) as Hok.
  destruct (poll_iteration E m) as [[u|e] m1]; simpl in *; [reflexivity|discriminate].
Qed.

Lemma process_messages_exit (fuel : nat) (m : machine World) :
  running (bot m) = false ->
  process_messages E (S fuel) m = Some (Ok tt, m).
Proof. intros Hr; simpl; now rewrite Hr. Qed.

Lemma process_messages_spec (fuel : nat) (m : machine World)
    (out : result unit * machine World) :
  process_messages E fuel m = Some out <->
  exists k,
    k < fuel /\
    (forall j, j < k -> running (bot (after_iterations E j m)) = true) /\
    running (bot (after_iterations E k m)) = false /\
    out = (Ok tt, after_iterations E k m).
Proof.
  revert m; induction fuel as [|fuel IH]; intros m.
  - split; [discriminate | intros [k [Hk _]]; lia].
  - destruct (running (bot m)) eqn:Hr.
    + rewrite (process_messages_continue fuel m Hr), IH. split.
      * intros [k [Hk [Hbefore [Hstop Hout]]]].
        exists (S k); repeat split; auto; [lia|].
        intros [|j] Hj; [exact Hr | apply Hbefore; lia].
      * intros [[|k] [Hk [Hbefore [Hstop Hout]]]].
        -- simpl in Hstop; congruence.
        -- exists k; repeat split; auto; [lia|].
           intros j Hj. apply (Hbefore (S j)); lia.
    + rewrite (process_messages_exit fuel m Hr). split.
      * intros Hout; inversion Hout; subst. exists 0.
        split; [lia|]. split; [intros j Hj; lia|]. split; [exact Hr | reflexivity].
      * intros [[|k] [Hk [Hbefore [Hstop Hout]]]]; [now subst|].
        specialize (Hbefore 0 ltac:(lia)); simpl in Hbefore; congruence.
Qed.

(** C3: a pass of the loop never raises; when its [try] block raises,
    the handler logs the error and sleeps 10 seconds.  The loop tests
    [running] once per pass, before the pass: it returns exactly when the
    flag is found unset at one of these tests, after the passes before it
    have run in full, and it runs forever when the flag is set at each. *)
Theorem poll_loop_only_stops_when_not_running :
  (forall m : machine World, fst (poll_iteration E m) = Ok tt) /\
  (forall (m m1 : machine World) e,
     scan_unread E m = (Raise e, m1) ->
     events (snd (poll_iteration E m)) =
       (events m1 ++ [LogError ("Error processing messages: " ++ exn_str e);
                      Sleep 10])%list) /\
  (forall fuel (m : machine World),
     process_messages E (S fuel) m =
       if running (bot m)
       then process_messages E fuel (snd (poll_iteration E m))
       else Some (Ok tt, m)) /\
  (forall fuel (m : machine World) out,
     process_messages E fuel m = Some out <->
     exists k,
       k < fuel /\
       (forall j, j < k -> running (bot (after_iterations E j m)) = true) /\
       running (bot (after_iterations E k m)) = false /\
       out = (Ok tt, after_iterations E k m)) /\
  (forall m : machine World,
     (forall k, running (bot (after_iterations E k m)) = true) ->
     forall fuel, process_messages E fuel m = None).
Proof.
  split; [exact poll_iteration_returns|].
  split.
  { intros m m1 e Hscan. rewrite (poll_iteration_recovers _ _ _ Hscan).
    unfold events; simpl. now rewrite map_app. }
  split.
  { intros fuel m. destruct (running (bot m)) eqn:Hr.
    - now apply process_messages_continue.
    - now apply process_messages_exit. }
  split; [exact process_messages_spec|].
  intros m Hall fuel.
  destruct (process_messages E fuel m) as [out|] eqn:Hrun; [|reflexivity].
  apply process_messages_spec in Hrun as [k [_ [_ [Hstop _]]]].
  rewrite Hall in Hstop; discriminate.
Qed.

End Polling.

(** ** Starting: handshake, launch errors, the route *)

Section Startup.

Context {World : Type}.
Variable E : Env World.

Lemma with_authenticated_eta (b : WhatsAppBot) :
  is_authenticated b = true ->
  {| driver := driver b; is_authenticated := true; running := running b |} = b.
Proof. intros <-. now destruct b. Qed.

(** X1: [wait_for_login] never raises.  It either returns [True], having
    set [is_authenticated] and nothing else, or returns [False] and leaves
    the bot object as it was. *)
Theorem wait_for_login_outcome (m : machine World) :
  Quiet E ->
  (fst (wait_for_login E m) = Ok true /\
   bot (snd (wait_for_login E m)) =
     {| driver := driver (bot m); is_authenticated := true; running := running (bot m) |})
  \/
  (fst (wait_for_login E m) = Ok false /\
   bot (snd (wait_for_login E m)) = bot m).
Proof.
  intros HQ.
  unfold wait_for_login, try_except, self_driver, logger_info, logger_error,
    set_is_authenticated.
  unfold bind, call, read, write, emit, lift, ret, raise; simpl.
  destruct (driver (bot m)) as [d|] eqn:Hd; simpl; [|now right].
  destruct (wait_until_present E d 30 qr_selector (world m)) as [[el|e] w1];
    simpl; rewrite ?HQ, ?Hd; simpl; [|now right].
  destruct (execute_script E d qr_script el w1) as [[b64|e] w2];
    simpl; rewrite ?HQ, ?Hd; simpl; [|now right].
  destruct (b64decode E b64) as [png|e]; simpl; [|now right].
  destruct (qrcode_make E png) as [img|e]; simpl; [|now right].
  destruct (show E img w2) as [[[]|e] w3]; simpl; rewrite ?HQ, ?Hd; simpl; [|now right].
  destruct (wait_until_present E d 120 chat_list_selector w3) as [[el'|e] w4];
    simpl; rewrite ?HQ, ?Hd; simpl; [now left | now right].
Qed.

(** X2: when [wait_for_login] returns [True] it has made exactly these
    calls on the stored driver, in this order: the wait of 30 seconds for
    the canvas, the script on the canvas, the display of the image, the
    wait of 120 seconds for the chat list. *)
Theorem wait_for_login_success_calls (m : machine World) :
  Quiet E ->
  fst (wait_for_login E m) = Ok true ->
  exists d qr_element qr_img,
    driver (bot m) = Some d /\
    events (snd (wait_for_login E m)) =
      (events m ++
       [WaitUntilPresent d 30 qr_selector;
        ExecuteScript d qr_script qr_element;
        Show qr_img;
        LogInfo "QR code generated. Please scan with WhatsApp";
        WaitUntilPresent d 120 chat_list_selector;
        LogInfo "WhatsApp login successful!"])%list.
Proof.
  intros HQ.
  unfold wait_for_login, try_except, self_driver, logger_info, logger_error,
    set_is_authenticated.
  unfold bind, call, read, write, emit, lift, ret, raise, events, record; simpl.
  destruct (driver (bot m)) as [d|] eqn:Hd; simpl; [|discriminate].
  destruct (wait_until_present E d 30 qr_selector (world m)) as [[el|e] w1];
    simpl; rewrite ?HQ, ?Hd; simpl; [|discriminate].
  destruct (execute_script E d qr_script el w1) as [[b64|e] w2];
    simpl; rewrite ?HQ, ?Hd; simpl; [|discriminate].
  destruct (b64decode E b64) as [png|e]; simpl; [|discriminate].
  destruct (qrcode_make E png) as [img|e]; simpl; [|discriminate].
  destruct (show E img w2) as [[[]|e] w3]; simpl; rewrite ?HQ, ?Hd; simpl;
    [|discriminate].
  destruct (wait_until_present E d 120 chat_list_selector w3) as [[el'|e] w4];
    simpl; rewrite ?HQ, ?Hd; simpl; [|discriminate].
  intros _. exists d, el, img. split; [reflexivity|].
  now rewrite !map_app, <- !app_assoc.
Qed.

(** X3: when the first wait raises (the canvas does not show up), the
    handshake stops there: nothing is displayed, there is no second wait,
    the error is logged after "Login failed: " and the result is [False]. *)
Theorem wait_for_login_no_challenge
    (m : machine World) (d : handle) (e : exn) (w : World) :
  driver (bot m) = Some d ->
  wait_until_present E d 30 qr_selector (world m) = (Raise e, w) ->
  fst (wait_for_login E m) = Ok false /\
  world (snd (wait_for_login E m)) = w /\
  events (snd (wait_for_login E m)) =
    (events m ++ [WaitUntilPresent d 30 qr_selector;
                  LogError ("Login failed: " ++ exn_str e)])%list.
Proof.
  intros Hd Hwait.
  unfold wait_for_login, try_except, self_driver, logger_error.
  unfold bind, call, read, emit, ret, events, record; simpl.
  rewrite Hd; simpl. rewrite Hwait; simpl.
  rewrite !map_app, <- !app_assoc; simpl. repeat split; auto.
Qed.

Lemma wait_for_login_body_no_thread :
  keeps (fun _ => True) (fun p => snd p <> ThreadStart) (wait_for_login E).
Proof.
  unfold wait_for_login. keeps_tac; intros; simpl; auto; discriminate.
Qed.

Lemma launch_tail_no_thread :
  keeps (fun _ => True) (fun p => snd p <> ThreadStart)
        (d <- self_driver "get" ;;
         call E (Get d whatsapp_url) (get E d whatsapp_url) ;;
         logger_info "WhatsApp Web opened").
Proof. keeps_tac; intros; simpl; auto; discriminate. Qed.

Lemma not_in_events (P : WhatsAppBot * event -> Prop) (ev : event)
    (added : list (WhatsAppBot * event)) :
  (forall p, P p -> snd p <> ev) -> Forall P added -> ~ In ev (map snd added).
Proof.
  intros HP Hall Hin. apply in_map_iff in Hin as [p [Hev Hin]].
  exact (HP p (proj1 (Forall_forall _ _) Hall p Hin) Hev).
Qed.

Lemma start_after_launch_thread (m : machine World) :
  exists added,
    history (snd (start_after_launch E m)) = (history m ++ added)%list /\
    (fst (start_after_launch E m) = Ok true <-> In ThreadStart (map snd added)).
Proof.
  unfold start_after_launch. rewrite bind_eq.
  destruct (launch_tail_no_thread m I) as [_ [a1 [Hh1 Hp1]]].
  destruct ((d <- self_driver _ ;; _) m) as [[u|e] m1]; simpl in Hh1.
  - rewrite bind_eq.
    destruct (wait_for_login_body_no_thread m1 I) as [_ [a2 [Hh2 Hp2]]].
    destruct (wait_for_login E m1) as [[[|]|e] m2]; simpl in Hh2.
    + exists (a1 ++ a2 ++ [(bot m2, ThreadStart);
                            (bot m2, LogInfo "WhatsApp bot started successfully!")])%list.
      repeat (unfold bind, emit, logger_info, ret, record; simpl).
      rewrite Hh2, Hh1, <- !app_assoc; simpl. split; [reflexivity|].
      split; [intros _|reflexivity].
      rewrite !map_app; simpl. apply in_or_app; right. apply in_or_app; right.
      now left.
    + exists (a1 ++ a2)%list; simpl. rewrite Hh2, Hh1, <- app_assoc.
      split; [reflexivity|]. split; [discriminate|].
      intros Hin. exfalso. rewrite map_app in Hin. apply in_app_or in Hin as [Hin|Hin].
      * now apply (not_in_events _ ThreadStart a1 (fun p H => H) Hp1).
      * now apply (not_in_events _ ThreadStart a2 (fun p H => H) Hp2).
    + exists (a1 ++ a2)%list; simpl. rewrite Hh2, Hh1, <- app_assoc.
      split; [reflexivity|]. split; [discriminate|].
      intros Hin. exfalso. rewrite map_app in Hin. apply in_app_or in Hin as [Hin|Hin].
      * now apply (not_in_events _ ThreadStart a1 (fun p H => H) Hp1).
      * now apply (not_in_events _ ThreadStart a2 (fun p H => H) Hp2).
  - exists a1; simpl. split; [exact Hh1|]. split; [discriminate|].
    intros Hin. exfalso.
    now apply (not_in_events _ ThreadStart a1 (fun p H => H) Hp1).
Qed.

(** X4: [POST /start] answers with the success body exactly when the
    polling thread was started during the call. *)
Theorem start_bot_success_iff_thread_started (m : machine World) :
  exists added,
    history (snd (start_bot E m)) = (history m ++ added)%list /\
    (fst (start_bot E m) = Ok (success "Bot started successfully") <->
     In ThreadStart (map snd added)).
Proof.
  rewrite start_bot_eq, start_eq; cbv zeta.
  destruct (chrome E (launch_options E) devnull (world m)) as [[h|e] w].
  - match goal with |- context [start_after_launch E ?m1] => set (m1' := m1) end.
    destruct (start_after_launch_thread m1') as [added [Hh Hiff]].
    exists ((with_running true (bot m), Chrome (launch_options E) devnull) :: added).
    destruct (start_after_launch E m1') as [[[|]|e] m2]; simpl in *;
      rewrite Hh, <- app_assoc; simpl; (split; [reflexivity|]).
    + split; [intros _; right; now apply Hiff | reflexivity].
    + split; [discriminate|]. intros [Hin|Hin]; [discriminate|].
      apply Hiff in Hin; discriminate.
    + split; [discriminate|]. intros [Hin|Hin]; [discriminate|].
      apply Hiff in Hin; discriminate.
  - exists [(with_running true (bot m), Chrome (launch_options E) devnull)]; simpl.
    split; [reflexivity|]. split; [discriminate|].
    intros [Hin|[]]; discriminate.
Qed.

(** X5: an exception of [webdriver.Chrome] is not caught: it leaves
    [start] and the [/start] route, after the launch attempt as only call
    and with [running] already set. *)
Theorem launch_error_reaches_the_route (m : machine World) (e : exn) (w : World) :
  chrome E (launch_options E) devnull (world m) = (Raise e, w) ->
  fst (start_bot E m) = Raise e /\
  events (snd (start_bot E m)) =
    (events m ++ [Chrome (launch_options E) devnull])%list /\
  world (snd (start_bot E m)) = w /\
  (Quiet E -> bot (snd (start_bot E m)) = with_running true (bot m)).
Proof.
  intros Hlaunch. rewrite start_bot_eq, start_eq; cbv zeta; rewrite Hlaunch; simpl.
  unfold events; simpl. rewrite map_app; simpl.
  repeat split; auto.
Qed.

(** X6: when the browser is launched but loading the page raises, the
    exception leaves the [/start] route; the new handle stays stored with
    [running] set, and the browser is not quit. *)
Theorem page_load_error_leaves_browser_open
    (m : machine World) (h : handle) (e : exn) (w w' : World) :
  Quiet E ->
  chrome E (launch_options E) devnull (world m) = (Ok h, w) ->
  get E h whatsapp_url w = (Raise e, w') ->
  fst (start_bot E m) = Raise e /\
  bot (snd (start_bot E m)) = with_driver h (with_running true (bot m)) /\
  events (snd (start_bot E m)) =
    (events m ++ [Chrome (launch_options E) devnull; Get h whatsapp_url])%list.
Proof.
  intros HQ Hlaunch Hget.
  rewrite start_bot_eq, start_eq; cbv zeta; rewrite Hlaunch.
  unfold start_after_launch, self_driver.
  unfold bind, call, read, ret, events, record; simpl.
  rewrite !HQ; simpl. rewrite Hget; simpl. rewrite !HQ.
  rewrite !map_app, <- !app_assoc; simpl. repeat split; auto.
Qed.

(** X7: a [start] that returns [True] has made exactly these calls, in
    this order, and ends with the new handle stored and both flags set. *)
Theorem successful_start_calls (m : machine World) :
  Quiet E ->
  fst (start E m) = Ok true ->
  exists h qr_element qr_img,
    bot (snd (start E m)) =
      {| driver := Some h; is_authenticated := true; running := true |} /\
    events (snd (start E m)) =
      (events m ++
       [Chrome (launch_options E) devnull;
        Get h whatsapp_url;
        LogInfo "WhatsApp Web opened";
        WaitUntilPresent h 30 qr_selector;
        ExecuteScript h qr_script qr_element;
        Show qr_img;
        LogInfo "QR code generated. Please scan with WhatsApp";
        WaitUntilPresent h 120 chat_list_selector;
        LogInfo "WhatsApp login successful!";
        ThreadStart;
        LogInfo "WhatsApp bot started successfully!"])%list.
Proof.
  intros HQ. rewrite start_eq; cbv zeta.
  destruct (chrome E (launch_options E) devnull (world m)) as [[h|e] w];
    [|discriminate].
  unfold start_after_launch, wait_for_login, try_except, self_driver, logger_info,
    logger_error, set_is_authenticated.
  unfold bind, call, read, write, emit, lift, ret, raise, events, record; simpl.
  rewrite ?HQ; simpl.
  destruct (get E h whatsapp_url w) as [[[]|e] w0]; simpl; rewrite ?HQ; simpl;
    [|discriminate].
  destruct (wait_until_present E h 30 qr_selector w0) as [[el|e] w1];
    simpl; rewrite ?HQ; simpl; [|discriminate].
  destruct (execute_script E h qr_script el w1) as [[b64|e] w2];
    simpl; rewrite ?HQ; simpl; [|discriminate].
  destruct (b64decode E b64) as [png|e]; simpl; [|discriminate].
  destruct (qrcode_make E png) as [img|e]; simpl; [|discriminate].
  destruct (show E img w2) as [[[]|e] w3]; simpl; rewrite ?HQ; simpl; [|discriminate].
  destruct (wait_until_present E h 120 chat_list_selector w3) as [[el'|e] w4];
    simpl; rewrite ?HQ; simpl; [|discriminate].
  intros _. exists h, el, img. split; [reflexivity|].
  now rewrite !map_app, <- !app_assoc.
Qed.

End Startup.

(** ** Flags and handles across operations *)

Section Flags.

Context {World : Type}.
Variable E : Env World.

Lemma start_keeps_authenticated :
  Quiet E -> keeps (fun b => is_authenticated b = true) (fun _ => True) (start E).
Proof.
  intros HQ. unfold start, initialize_driver, wait_for_login; cbv zeta.
  keeps_tac; intros; rewrite ?HQ; simpl; auto.
Qed.

Lemma stop_keeps_authenticated :
  Quiet E -> keeps (fun b => is_authenticated b = true) (fun _ => True) (stop E).
Proof.
  intros HQ. unfold stop.
  keeps_tac; intros; rewrite ?HQ; simpl; auto.
Qed.

Lemma poll_iteration_keeps (I : WhatsAppBot -> Prop) :
  (forall w b, I b -> I (other_threads E w b)) ->
  keeps I (fun p => match snd p with
                    | Chrome _ _ | Get _ _ | Quit _ | ThreadStart => False
                    | _ => True
                    end)
        (poll_iteration E).
Proof.
  intros HI. unfold poll_iteration, scan_unread, handle_chat, get_gemini_response.
  keeps_tac; intros; simpl; auto.
Qed.

(** X8: once [is_authenticated] is set, no operation clears it: not a
    later [start], whatever its outcome, not [stop], not a pass of the
    loop. *)
Theorem is_authenticated_is_never_cleared (m : machine World) :
  Quiet E ->
  is_authenticated (bot m) = true ->
  is_authenticated (bot (snd (start_bot E m))) = true /\
  is_authenticated (bot (snd (stop_bot E m))) = true /\
  is_authenticated (bot (snd (poll_iteration E m))) = true.
Proof.
  intros HQ Ha. repeat split.
  - rewrite start_bot_eq.
    pose proof (proj1 (start_keeps_authenticated HQ m Ha)) as Hs.
    now destruct (start E m) as [[[|]|e] m'].
  - unfold stop_bot. rewrite bind_eq.
    pose proof (proj1 (stop_keeps_authenticated HQ m Ha)) as Hs.
    now destruct (stop E m) as [[[]|e] m'].
  - apply (poll_iteration_keeps (fun b => is_authenticated b = true)); auto.
    intros w b Hb. now rewrite HQ.
Qed.

(** X11: a second [stop] calls [quit] again on the stored handle and
    leaves the bot object as the first [stop] left it. *)
Theorem stop_twice_quits_twice (m : machine World) (h : handle) :
  Quiet E ->
  driver (bot m) = Some h ->
  bot (snd (stop E (snd (stop E m)))) = bot (snd (stop E m)) /\
  events (snd (stop E (snd (stop E m)))) =
    (events m ++ [Quit h; LogInfo "WhatsApp bot stopped";
                  Quit h; LogInfo "WhatsApp bot stopped"])%list.
Proof.
  intros HQ Hd.
  destruct (stop_spec E m HQ) as [_ [Hb1 Hev1]].
  destruct (stop_spec E (snd (stop E m)) HQ) as [_ [Hb2 Hev2]].
  rewrite Hb2, Hev2, Hev1, Hb1; simpl. rewrite Hd; simpl.
  split; [reflexivity|]. now rewrite <- !app_assoc.
Qed.

(** X10: with no driver stored, [POST /stop] makes no call to the
    browser: it unsets [running], logs, and answers with the success body. *)
Theorem stop_before_any_start (m : machine World) :
  driver (bot m) = None ->
  fst (stop_bot E m) = Ok (success "Bot stopped successfully") /\
  bot (snd (stop_bot E m)) = with_running false (bot m) /\
  world (snd (stop_bot E m)) = world m /\
  events (snd (stop_bot E m)) = (events m ++ [LogInfo "WhatsApp bot stopped"])%list.
Proof.
  intros Hd.
  unfold stop_bot, stop, bind, set_running, write, read, logger_info, emit, ret,
    events, record, with_running; simpl.
  rewrite Hd; simpl. rewrite map_app; simpl. repeat split; auto.
Qed.

(** X12: after a [start] on a bot that already holds a driver, [stop]
    quits the browser launched last; the one held before is never quit. *)
Theorem second_start_then_stop_leaks_first_browser
    (m : machine World) (h0 h1 : handle) (w : World) :
  Quiet E ->
  driver (bot m) = Some h0 ->
  chrome E (launch_options E) devnull (world m) = (Ok h1, w) ->
  h0 <> h1 ->
  exists added,
    events (snd (stop E (snd (start E m)))) = (events m ++ added)%list /\
    In (Quit h1) added /\
    ~ In (Quit h0) added.
Proof.
  intros HQ Hd Hlaunch Hne.
  destruct (stop_spec E (snd (start E m)) HQ) as [_ [_ Hev]].
  rewrite Hev; clear Hev.
  rewrite start_eq; cbv zeta; rewrite Hlaunch.
  match goal with |- context [start_after_launch E ?m1] => set (m1' := m1) end.
  destruct (start_after_launch_never_quits E m1' I) as [_ [rest [Hh Hp]]].
  assert (Hdrv : driver (bot (snd (start_after_launch E m1'))) = Some h1)
    by now apply (start_after_launch_keeps_driver E h1 HQ).
  rewrite Hdrv. unfold events. rewrite Hh; simpl.
  exists (Chrome (launch_options E) devnull :: map snd rest
          ++ [Quit h1; LogInfo "WhatsApp bot stopped"])%list.
  split; [|split].
  - rewrite !map_app, <- !app_assoc. reflexivity.
  - right. apply in_or_app; right. now left.
  - intros [Hin|Hin]; [discriminate|].
    apply in_app_or in Hin as [Hin|[Hin|[Hin|[]]]]; try discriminate.
    + apply in_map_iff in Hin as [p [Hev Hin]].
      exact (proj1 (Forall_forall _ _) Hp p Hin h0 Hev).
    + inversion Hin; congruence.
Qed.

(** X9: after [POST /start], whatever its outcome, [GET /health] reports
    [bot_running = true]; after [POST /stop] it reports [false]. *)
Theorem health_after_start_and_after_stop (m : machine World) :
  Quiet E ->
  fst (health_check (snd (start_bot E m))) = Ok (healthy true) /\
  fst (health_check (snd (stop_bot E m))) = Ok (healthy false).
Proof.
  intros HQ. split.
  - assert (Hr : running (bot (snd (start E m))) = true).
    { rewrite start_eq; cbv zeta.
      destruct (chrome E (launch_options E) devnull (world m)) as [[h|e] w].
      - match goal with |- context [start_after_launch E ?m1] => set (m1' := m1) end.
        assert (Hrun : running (bot m1') = true) by (simpl; now rewrite HQ).
        now destruct (start_after_launch_running E m1' HQ Hrun) as [a [_ [_ [Hr _]]]].
      - simpl. now rewrite HQ. }
    rewrite start_bot_eq. destruct (start E m) as [[[|]|e] m']; simpl in *;
      now rewrite Hr.
  - destruct (stop_spec E m HQ) as [_ [Hb _]].
    unfold stop_bot. rewrite bind_eq.
    destruct (stop E m) as [[[]|e] m']; simpl in *; now rewrite Hb.
Qed.

End Flags.

(** ** More on the passes of the loop *)

Section Passes.

Context {World : Type}.
Variable E : Env World.

(** X13: a pass of the loop does not write to the bot object, and it
    never launches a browser, loads a page, quits the driver or starts a
    thread. *)
Theorem poll_iteration_leaves_the_bot_alone (m : machine World) :
  Quiet E ->
  bot (snd (poll_iteration E m)) = bot m /\
  exists added,
    events (snd (poll_iteration E m)) = (events m ++ added)%list /\
    forall ev, In ev added ->
      match ev with
      | Chrome _ _ | Get _ _ | Quit _ | ThreadStart => False
      | _ => True
      end.
Proof.
  intros HQ.
  destruct (poll_iteration_keeps E (fun b => b = bot m)
              (fun w b Hb => eq_trans (HQ w b) Hb) m eq_refl)
    as [Hb [added [Hh Hp]]].
  split; [exact Hb|].
  exists (map snd added). unfold events. rewrite Hh, map_app. split; [reflexivity|].
  intros ev Hin. apply in_map_iff in Hin as [p [<- Hin]].
  exact (proj1 (Forall_forall _ _) Hp p Hin).
Qed.

(** X14: started with [running] set and with no other thread touching
    the bot object, [process_messages] never returns. *)
Theorem undisturbed_loop_never_returns (m : machine World) :
  Quiet E ->
  running (bot m) = true ->
  forall fuel, process_messages E fuel m = None.
Proof.
  intros HQ Hr fuel. revert m Hr; induction fuel as [|fuel IH]; intros m Hr.
  - reflexivity.
  - rewrite (process_messages_continue E fuel m Hr). apply IH.
    destruct (poll_iteration_keeps E (fun b => b = bot m)
                (fun w b Hb => eq_trans (HQ w b) Hb) m eq_refl) as [Hb _].
    now rewrite Hb.
Qed.

(** X15: when no conversation is marked unread, a pass is the query
    followed by the sleep of 5 seconds. *)
Theorem pass_without_unread_conversations
    (m : machine World) (d : handle) (w : World) :
  driver (bot m) = Some d ->
  find_elements E d unread_selector (world m) = (Ok [], w) ->
  fst (poll_iteration E m) = Ok tt /\
  world (snd (poll_iteration E m)) = sleep E 5 w /\
  events (snd (poll_iteration E m)) =
    (events m ++ [FindElements d unread_selector; Sleep 5])%list.
Proof.
  intros Hd Hfind.
  unfold poll_iteration, try_except, scan_unread, self_driver, time_sleep, call_total.
  unfold bind, call, read, ret, events, record; simpl.
  rewrite Hd; simpl. rewrite Hfind; simpl.
  rewrite !map_app, <- !app_assoc; simpl. repeat split; auto.
Qed.

(** X18: a conversation that shows no message element is left after the
    click, the settle sleep and the query. *)
Theorem conversation_without_messages_is_skipped
    (chat : element) (m : machine World) (d : handle) (w1 w2 : World) :
  Quiet E ->
  driver (bot m) = Some d ->
  click E chat (world m) = (Ok tt, w1) ->
  find_elements E d message_selector (sleep E 2 w1) = (Ok [], w2) ->
  fst (handle_chat E chat m) = Ok tt /\
  world (snd (handle_chat E chat m)) = w2 /\
  events (snd (handle_chat E chat m)) =
    (events m ++ [Click chat; Sleep 2; FindElements d message_selector])%list.
Proof.
  intros HQ Hd Hclick Hfind.
  unfold handle_chat, self_driver, time_sleep, call_total.
  unfold bind, call, read, ret, events, record; simpl.
  rewrite Hclick; simpl. rewrite !HQ, Hd; simpl. rewrite Hfind; simpl.
  rewrite !map_app, <- !app_assoc; simpl. repeat split; auto.
Qed.

Lemma for_each_stops_at_raise {A} (body : A -> M World unit)
    (done : list A) (x : A) (rest : list A) (m m1 m2 : machine World) (e : exn) :
  for_each done body m = (Ok tt, m1) ->
  body x m1 = (Raise e, m2) ->
  for_each (done ++ x :: rest)%list body m = (Raise e, m2).
Proof.
  revert m; induction done as [|y done IH]; intros m Hdone Hx; simpl in *.
  - inversion Hdone; subst. unfold bind. now rewrite Hx.
  - unfold bind in *. destruct (body y m) as [[[]|e'] m']; [|discriminate].
    now apply IH.
Qed.

(** X17: when handling a conversation raises, the pass ends there: the
    unread conversations after it are not opened in this pass, the error
    is logged and the loop sleeps 10 seconds. *)
Theorem failing_conversation_ends_the_pass
    (m m1 m2 : machine World) (d : handle) (w : World)
    (done : list element) (chat : element) (rest : list element) (e : exn) :
  driver (bot m) = Some d ->
  find_elements E d unread_selector (world m) = (Ok (done ++ chat :: rest)%list, w) ->
  for_each done (handle_chat E)
    {| bot := other_threads E w (bot m);
       world := w;
       history := record (FindElements d unread_selector) m |} = (Ok tt, m1) ->
  handle_chat E chat m1 = (Raise e, m2) ->
  fst (poll_iteration E m) = Ok tt /\
  world (snd (poll_iteration E m)) = sleep E 10 (world m2) /\
  events (snd (poll_iteration E m)) =
    (events m2 ++ [LogError ("Error processing messages: " ++ exn_str e);
                   Sleep 10])%list.
Proof.
  intros Hd Hfind Hdone Hchat.
  assert (Hscan : scan_unread E m = (Raise e, m2)).
  { unfold scan_unread, self_driver. rewrite bind_eq. unfold bind at 1, read, ret.
    simpl. rewrite Hd; simpl. rewrite bind_eq. unfold call at 1. rewrite Hfind.
    rewrite bind_eq.
    now rewrite (for_each_stops_at_raise _ done chat rest _ m1 m2 e Hdone Hchat). }
  rewrite (poll_iteration_recovers E _ _ _ Hscan); simpl.
  unfold events; simpl. rewrite map_app; simpl. repeat split; auto.
Qed.

(** X19: when the last message has no [class] attribute, the membership
    test raises [TypeError] right after the attribute is read. *)
Theorem missing_class_attribute_raises
    (chat : element) (m m1 : machine World) (message_text : string) :
  read_last_message E chat m = (Ok (Some (message_text, None)), m1) ->
  handle_chat E chat m =
    (Raise (Exception "TypeError" "argument of type 'NoneType' is not iterable"), m1).
Proof.
  intros Hread. now rewrite read_then_handle, Hread.
Qed.

(** X20: when the provider fails on an incoming message, the fallback
    text is what the bot types into the conversation and sends, as long as
    the driver is still stored and the browser accepts the lookup of the
    input control, the click and the two entries. *)
Theorem provider_error_sends_the_fallback
    (chat : element) (m m1 : machine World) (message_text class : string) (e : exn)
    (d : handle) (input_box : element) (w w1 w2 w3 w4 : World) :
  read_last_message E chat m = (Ok (Some (message_text, Some class)), m1) ->
  direction_of class = incoming ->
  provider_error E message_text (world m1) = Some e ->
  snd (generate_content E message_text (world m1)) = w ->
  driver (other_threads E w (bot m1)) = Some d ->
  find_element E d input_selector w = (Ok input_box, w1) ->
  click E input_box w1 = (Ok tt, w2) ->
  send_keys E input_box fallback_message w2 = (Ok tt, w3) ->
  send_keys E input_box newline w3 = (Ok tt, w4) ->
  fst (handle_chat E chat m) = Ok tt /\
  world (snd (handle_chat E chat m)) = w4 /\
  events (snd (handle_chat E chat m)) =
    (events m1 ++
     [GenerateContent message_text;
      LogError ("Gemini API error: " ++ exn_str e);
      FindElement d input_selector;
      Click input_box;
      SendKeys input_box fallback_message;
      SendKeys input_box newline;
      LogInfo ("Message processed: " ++ take 50 message_text ++ "...")])%list.
Proof.
  intros Hread Hin Herr Hw Hd Hfind Hclick Hsend Henter.
  apply direction_incoming in Hin.
  rewrite read_then_handle, Hread.
  unfold contained_in. rewrite Hin, bind_eq.
  change (ret true m1) with (Ok true, m1). cbv beta iota.
  unfold provider_error in Herr.
  unfold get_gemini_response, try_except, self_driver, logger_info, logger_error.
  unfold bind, call, lift, read, ret, raise, emit, events, record; simpl.
  destruct (generate_content E message_text (world m1)) as [[[[t|e']]|e0] w0]; simpl;
    simpl in Hw; inversion Herr; subst; clear Herr;
    rewrite Hd; simpl; rewrite Hfind; simpl; rewrite Hclick; simpl;
    rewrite Hsend; simpl; rewrite Henter; simpl;
    (split; [reflexivity|]); (split; [reflexivity|]);
    now rewrite !map_app, <- !app_assoc.
Qed.

Lemma handle_chat_appends (chat : element) :
  keeps (fun _ => True) (fun _ => True) (handle_chat E chat).
Proof.
  unfold handle_chat, get_gemini_response. keeps_tac; auto.
Qed.

Lemma scan_unread_appends :
  keeps (fun _ => True) (fun _ => True) (scan_unread E).
Proof.
  unfold scan_unread, handle_chat, get_gemini_response. keeps_tac; auto.
Qed.

Lemma scan_unread_ends_with_sleep (m m1 : machine World) :
  scan_unread E m = (Ok tt, m1) ->
  exists before,
    events m1 = (events m ++ before ++ [Sleep 5])%list.
Proof.
  unfold scan_unread, self_driver. rewrite bind_eq.
  unfold bind at 1, read, ret; simpl.
  destruct (driver (bot m)) as [d|]; simpl; [|discriminate].
  rewrite bind_eq. unfold call at 1.
  destruct (find_elements E d unread_selector (world m)) as [[chats|e] w];
    [|discriminate].
  rewrite bind_eq.
  match goal with |- context [for_each chats _ ?m0] => set (m0' := m0) end.
  destruct (keeps_for_each (fun _ => True) (fun _ => True) chats (handle_chat E)
              handle_chat_appends m0' I) as [_ [added [Hh _]]].
  destruct (for_each chats (handle_chat E) m0') as [[[]|e] m2]; [|discriminate].
  simpl in Hh. unfold time_sleep, call_total, call; simpl.
  intros Heq; inversion Heq; subst; clear Heq.
  exists (FindElements d unread_selector :: map snd added).
  unfold events, record; simpl. rewrite Hh; simpl. unfold record; simpl.
  now rewrite !map_app, <- !app_assoc.
Qed.

(** X16: every pass of the loop ends with a sleep: 5 seconds when the
    [try] block completes, 10 seconds when it raises. *)
Theorem pass_always_ends_with_a_sleep (m : machine World) :
  exists before secs,
    events (snd (poll_iteration E m)) = (events m ++ before ++ [Sleep secs])%list /\
    ((fst (scan_unread E m) = Ok tt /\ secs = 5) \/
     (exists e, fst (scan_unread E m) = Raise e /\ secs = 10)).
Proof.
  destruct (scan_unread E m) as [[[]|e] m1] eqn:Hscan.
  - destruct (scan_unread_ends_with_sleep m m1 Hscan) as [before Hev].
    exists before, 5. split; [|left; now split].
    unfold poll_iteration, try_except. now rewrite Hscan.
  - destruct (scan_unread_appends m I) as [_ [added [Hh _]]].
    rewrite Hscan in Hh; simpl in Hh.
    rewrite (poll_iteration_recovers E _ _ _ Hscan).
    exists (map snd added
            ++ [LogError ("Error processing messages: " ++ exn_str e)])%list, 10.
    split; [|right; exists e; now split].
    unfold events; simpl. rewrite Hh. now rewrite !map_app, <- !app_assoc.
Qed.

(** X21: [get_gemini_response] always returns a string, makes exactly
    one request to the provider, and returns the text of the response
    unchanged when there is one. *)
Theorem completion_is_a_single_request (message : string) (m : machine World) :
  (exists reply, fst (get_gemini_response E message m) = Ok reply) /\
  (exists logged,
     events (snd (get_gemini_response E message m)) =
       (events m ++ GenerateContent message :: logged)%list /\
     forall ev, In ev logged -> exists text, ev = LogError text) /\
  (forall reply w,
     generate_content E message (world m) = (Ok (Response (Ok reply)), w) ->
     fst (get_gemini_response E message m) = Ok reply).
Proof.
  unfold get_gemini_response, try_except, bind, call, lift, logger_error, emit,
    ret, events, record.
  destruct (generate_content E message (world m)) as [[[[t|e']]|e] w]; simpl;
    rewrite ?map_app, <- ?app_assoc; simpl.
  - split; [eauto|]. split.
    + exists []. split; [reflexivity | intros ev []].
    + intros reply w' Heq; now inversion Heq.
  - split; [eauto|]. split.
    + eexists [_]. split; [reflexivity|]. intros ev [<-|[]]; eauto.
    + intros reply w' Heq; inversion Heq.
  - split; [eauto|]. split.
    + eexists [_]. split; [reflexivity|]. intros ev [<-|[]]; eauto.
    + intros reply w' Heq; inversion Heq.
Qed.

End Passes.

(** ** The background starter *)

Section Background.

Context {World : Type}.
Variable E : Env World.

(** X25: when [AUTO_START], lower-cased, is not "true",
    [run_bot_in_background] only sleeps its 10 seconds. *)
Theorem auto_start_disabled (m : machine World) :
  lower (environ_get E "AUTO_START" "true") <> "true" ->
  fst (run_bot_in_background E m) = Ok tt /\
  world (snd (run_bot_in_background E m)) = sleep E 10 (world m) /\
  events (snd (run_bot_in_background E m)) = (events m ++ [Sleep 10])%list /\
  (Quiet E -> bot (snd (run_bot_in_background E m)) = bot m).
Proof.
  intros Hoff. apply String.eqb_neq in Hoff.
  unfold run_bot_in_background, time_sleep, call_total. rewrite Hoff.
  unfold bind, call, ret, events, record; simpl. rewrite map_app; simpl.
  repeat split; auto.
Qed.

(** X26: when [AUTO_START], lower-cased, is "true" (the default when it
    is unset), [run_bot_in_background] sleeps 10 seconds and then starts
    the bot. *)
Theorem auto_start_enabled (m : machine World) :
  lower (environ_get E "AUTO_START" "true") = "true" ->
  exists rest,
    events (snd (run_bot_in_background E m)) =
      (events m ++ Sleep 10 :: Chrome (launch_options E) devnull :: rest)%list.
Proof.
  intros Hon. apply String.eqb_eq in Hon.
  unfold run_bot_in_background. rewrite Hon.
  unfold time_sleep, call_total. rewrite bind_eq. unfold call at 1; simpl.
  rewrite bind_eq.
  match goal with |- context [start E ?m0] => set (m0' := m0) end.
  assert (Hst : exists rest,
             events (snd (start E m0')) =
               (events m0' ++ Chrome (launch_options E) devnull :: rest)%list).
  { rewrite start_eq; cbv zeta.
    destruct (chrome E (launch_options E) devnull (world m0')) as [[h|e] w].
    - match goal with |- context [start_after_launch E ?m1] => set (m1' := m1) end.
      destruct (start_after_launch_never_quits E m1' I) as [_ [rest [Hh _]]].
      exists (map snd rest). unfold events. rewrite Hh; simpl.
      now rewrite !map_app, <- app_assoc.
    - exists []. unfold events; simpl. now rewrite map_app. }
  destruct Hst as [rest Hst]. exists rest.
  destruct (start E m0') as [[b|e] m2]; simpl in *; rewrite Hst;
    unfold events, m0', record; simpl; now rewrite map_app, <- app_assoc.
Qed.

End Background.

(** ** The string and list operations of the loop *)

Lemma prefix_app (s1 s2 : string) :
  prefix s1 s2 = true <-> exists post, s2 = s1 ++ post.
Proof.
  revert s2; induction s1 as [|c s1 IH]; intros s2.
  - split; [intros _; now exists s2 | intros _; now destruct s2].
  - destruct s2 as [|c' s2]; simpl.
    + split; [discriminate | intros [post H]; discriminate].
    + destruct (ascii_dec c c') as [->|Hne].
      * rewrite IH. split; intros [post H]; exists post; [now subst | now inversion H].
      * split; [discriminate | intros [post H]; inversion H; congruence].
Qed.

Lemma contains_iff_substring (needle hay : string) :
  contains needle hay = true <-> exists pre post, hay = pre ++ needle ++ post.
Proof.
  induction hay as [|c hay IH].
  - change (contains needle EmptyString) with (prefix needle EmptyString).
    rewrite prefix_app. split.
    + intros [post H]. now exists EmptyString, post.
    + intros [pre [post H]]. destruct pre; simpl in H; [now exists post|discriminate].
  - change (contains needle (String c hay))
      with (prefix needle (String c hay) || contains needle hay).
    rewrite orb_true_iff, IH, prefix_app. split.
    + intros [[post H]|[pre [post H]]].
      * now exists EmptyString, post.
      * exists (String c pre), post. simpl. now rewrite H.
    + intros [[|c' pre] [post H]]; simpl in H.
      * left. now exists post.
      * right. inversion H; subst. now exists pre, post.
Qed.

(** X22: a last message is treated as incoming exactly when "message-in"
    occurs somewhere in its class attribute. *)
Theorem incoming_iff_marker_occurs (class : string) :
  direction_of class = incoming <->
  exists before after, class = before ++ "message-in" ++ after.
Proof.
  unfold direction_of. rewrite <- contains_iff_substring.
  destruct (contains "message-in" class); split; congruence.
Qed.

(** X23: [messages[-1]], as [handle_chat] uses it: absent exactly on the
    empty list, otherwise the element that ends the list. *)
Theorem last_element_is_the_final_one {A : Type} (xs : list A) :
  (last_element xs = None <-> xs = []) /\
  (forall x, last_element xs = Some x <-> exists earlier, xs = earlier ++ [x])%list.
Proof.
  induction xs as [|y [|z rest] IH].
  - split; [tauto|]. intros x; split; [discriminate|].
    intros [[|a earlier] H]; discriminate.
  - split; [split; discriminate|]. intros x; simpl; split.
    + intros H; inversion H; subst. now exists [].
    + intros [[|a [|b earlier]] H]; simpl in H; inversion H; subst; auto.
  - destruct IH as [IHn IHs]. split.
    + split; [|discriminate]. intros H. change (last_element (z :: rest) = None) in H.
      apply IHn in H; discriminate.
    + intros x. change (last_element (y :: z :: rest)) with (last_element (z :: rest)).
      rewrite IHs. split.
      * intros [earlier H]. exists (y :: earlier). simpl. now rewrite H.
      * intros [[|a earlier] H]; simpl in H; inversion H; subst.
        now exists earlier.
Qed.

(** X24: [message_text[:50]], as the log line uses it: a prefix of the
    text that holds its first code points, as many as the bound or all of
    them when there are fewer, and that never ends inside a code point. *)
Theorem take_is_a_bounded_prefix (n : nat) (s : string) :
  exists rest,
    s = take n s ++ rest /\
    code_points (take n s) = Nat.min n (code_points s) /\
    match rest with
    | EmptyString => True
    | String c _ => continuation c = false
    end.
Proof.
  revert n; induction s as [|c s IH]; intros n.
  - exists EmptyString; simpl. split; [reflexivity|]. split; [now rewrite Nat.min_0_r|exact I].
  - simpl. destruct (continuation c) eqn:Hc.
    + destruct (IH n) as [rest [Heq [Hlen Hrest]]].
      exists rest; simpl. rewrite Hc. split; [now rewrite <- Heq|]. now split.
    + destruct n as [|n].
      * exists (String c s); simpl. split; [reflexivity|]. now split.
      * destruct (IH n) as [rest [Heq [Hlen Hrest]]].
        exists rest; simpl. rewrite Hc, Hlen. split; [now rewrite <- Heq|]. now split.
Qed.

(** Two bytes for one letter: U+00E9 followed by "ab", cut after one
    and after two code points. *)
Example take_keeps_code_points_whole :
  let e_acute := fun rest => String (ascii_of_nat 195) (String (ascii_of_nat 169) rest) in
  code_points (e_acute "ab") = 3 /\
  take 1 (e_acute "ab") = e_acute EmptyString /\
  take 2 (e_acute "ab") = e_acute "a".
Proof. repeat split. Qed.

(** ** Runs on the simulated page *)

Section Runs.

Import Sim.

Lemma sim_quiet (sc : scenario) : stop_at sc = None -> Quiet (env sc).
Proof.
  intros Hnone w b. simpl. unfold sim_other_threads, stopped. now rewrite Hnone.
Qed.

Lemma start_bot_failure_leaves_running_set_witness :
  Quiet timeout_page /\
  fst (start timeout_page fresh) = Ok false /\
  fst (start_bot timeout_page fresh) = Ok (failure "Failed to start bot") /\
  running (bot (snd (start_bot timeout_page fresh))) = true /\
  fst (health_check (snd (start_bot timeout_page fresh))) = Ok (healthy true).
Proof.
  split; [intros w b; reflexivity|].
  split; [reflexivity|].
  apply (start_bot_failure_leaves_running_set timeout_page fresh).
  - intros w b; reflexivity.
  - reflexivity.
Defined.

(** [POST /start] on a page where the login canvas never appears, call by
    call: the wait of 30 seconds times out, the route answers with the
    error body, and [running] is still set. *)
Example start_bot_handshake_timeout :
  let out := start_bot timeout_page fresh in
  fst out = Ok (failure "Failed to start bot") /\
  events (snd out) =
    [Chrome (launch_options timeout_page) devnull;
     Get 0 whatsapp_url;
     LogInfo "WhatsApp Web opened";
     WaitUntilPresent 0 30 qr_selector;
     LogError "Login failed: Message: "] /\
  clock (world (snd out)) = 30 /\
  running (bot (snd out)) = true /\
  fst (health_check (snd out)) = Ok (healthy true).
Proof. vm_compute. repeat split. Qed.

Lemma get_gemini_response_fallback_differs :
  provider_error failing_provider "Hello" (world (logged_in true)) =
    Some (Exception "ResourceExhausted" "429 quota exceeded") /\
  fst (get_gemini_response failing_provider "Hello" (logged_in true)) <>
    Ok "service unavailable, try again".
Proof. split; [reflexivity | vm_compute; discriminate]. Qed.

Lemma get_gemini_response_absorbs_errors_witness :
  provider_error failing_provider "Hello" (world (logged_in true)) =
    Some (Exception "ResourceExhausted" "429 quota exceeded") /\
  fst (get_gemini_response failing_provider "Hello" (logged_in true)) =
    Ok fallback_message /\
  events (snd (get_gemini_response failing_provider "Hello" (logged_in true))) =
    [GenerateContent "Hello"; LogError "Gemini API error: 429 quota exceeded"].
Proof.
  split; [reflexivity|].
  apply (get_gemini_response_absorbs_errors failing_provider "Hello" (logged_in true)
           (Exception "ResourceExhausted" "429 quota exceeded")).
  reflexivity.
Defined.

(** The loop when another thread runs [stop] while the first pass is
    sleeping after its click: the pass goes on, fails on the closed
    session, recovers with its 10 seconds of sleep, and only then does the
    loop see the flag. *)
Example stop_takes_effect_after_the_pass :
  exists m',
    process_messages (env (one_chat echo hello_in (Some 2))) 2 (logged_in true)
      = Some (Ok tt, m') /\
    running (bot m') = false /\
    events m' =
      [FindElements 0 unread_selector;
       Click 10;
       Sleep 2;
       FindElements 0 message_selector;
       LogError "Error processing messages: Message: invalid session id";
       Sleep 10].
Proof. eexists; split; [vm_compute; reflexivity | split; reflexivity]. Qed.

Example loop_still_going_after_three_passes :
  process_messages quiet_page 3 (logged_in true) = None.
Proof. reflexivity. Qed.

Lemma stop_keeps_driver_handle :
  driver (bot (snd (start quiet_page fresh))) = Some 0 /\
  driver (bot (snd (stop quiet_page (snd (start quiet_page fresh))))) <> None.
Proof. split; [reflexivity | vm_compute; discriminate]. Qed.

Lemma driver_set_by_start_kept_by_stop_witness :
  Quiet quiet_page /\
  chrome quiet_page (launch_options quiet_page) devnull (world fresh) =
    (Ok 0, {| clock := 0; sessions := 1; closed := []; opened := None;
              seen := []; typed := [] |}) /\
  driver (bot (snd (start quiet_page fresh))) = Some 0 /\
  forall m0,
    driver (bot (snd (stop quiet_page m0))) = driver (bot m0) /\
    events (snd (stop quiet_page m0)) =
      (events m0 ++
       match driver (bot m0) with Some h0 => [Quit h0] | None => [] end ++
       [LogInfo "WhatsApp bot stopped"])%list.
Proof.
  split; [intros w b; reflexivity|].
  split; [reflexivity|].
  apply (driver_set_by_start_kept_by_stop quiet_page fresh 0
           {| clock := 0; sessions := 1; closed := []; opened := None;
              seen := []; typed := [] |}).
  - intros w b; reflexivity.
  - reflexivity.
Defined.

Lemma stop_when_not_running_witness :
  Quiet quiet_page /\
  running (bot (logged_in false)) = false /\
  bot (snd (stop_bot quiet_page (logged_in false))) = bot (logged_in false) /\
  fst (stop_bot quiet_page (logged_in false)) = Ok (success "Bot stopped successfully").
Proof.
  split; [intros w b; reflexivity|].
  split; [reflexivity|].
  apply (stop_when_not_running quiet_page (logged_in false)).
  - intros w b; reflexivity.
  - reflexivity.
Defined.

Lemma outgoing_last_message_gets_no_reply_witness :
  let m := logged_in true in
  let m1 := snd (read_last_message outgoing_page 10 m) in
  read_last_message outgoing_page 10 m =
    (Ok (Some ("On my way", Some "message-out focusable")), m1) /\
  direction_of "message-out focusable" = outgoing /\
  handle_chat outgoing_page 10 m = (Ok tt, m1) /\
  exists added,
    events m1 = (events m ++ added)%list /\
    forallb (fun ev => negb (reply_event ev)) added = true.
Proof.
  split; [reflexivity|].
  split; [reflexivity|].
  apply (outgoing_last_message_gets_no_reply outgoing_page 10 (logged_in true)
           (snd (read_last_message outgoing_page 10 (logged_in true)))
           "On my way" "message-out focusable").
  - reflexivity.
  - reflexivity.
Defined.


(** The run behind the previous statement, call by call. *)
Example hello_is_answered_on_the_page :
  fst (handle_chat quiet_page 10 (logged_in true)) = Ok tt /\
  events (snd (handle_chat quiet_page 10 (logged_in true))) =
    [Click 10; Sleep 2; FindElements 0 message_selector; Text 101;
     GetAttribute 101 "class"; GenerateContent "Hello";
     FindElement 0 input_selector; Click input_box;
     SendKeys input_box "You said: Hello"; SendKeys input_box newline;
     LogInfo "Message processed: Hello..."] /\
  typed (world (snd (handle_chat quiet_page 10 (logged_in true)))) =
    ["You said: Hello"; newline].
Proof. repeat split. Qed.

Lemma failed_start_reports_running_witness :
  Quiet timeout_page /\
  exists added,
    history (snd (start timeout_page fresh)) = (history fresh ++ added)%list /\
    hd_error (map snd added) = Some (Chrome (launch_options timeout_page) devnull) /\
    (forall m1 : machine page, In (bot m1) (map fst added) ->
                fst (health_check m1) = Ok (healthy true)) /\
    (fst (start timeout_page fresh) = Ok false ->
     ~ In ThreadStart (map snd added) /\
     fst (health_check (snd (start timeout_page fresh))) = Ok (healthy true)).
Proof.
  split; [intros w b; reflexivity|].
  apply (failed_start_reports_running timeout_page fresh).
  intros w b; reflexivity.
Defined.

Lemma start_again_replaces_driver_witness :
  driver (bot (logged_in true)) = Some 0 /\
  chrome quiet_page (launch_options quiet_page) devnull (world (logged_in true)) =
    (Ok 1, {| clock := 0; sessions := 2; closed := []; opened := None;
              seen := []; typed := [] |}) /\
  exists b0 rest,
    history (snd (start quiet_page (logged_in true))) =
      (history (logged_in true) ++
       (b0, Chrome (launch_options quiet_page) devnull) :: rest)%list /\
    driver b0 = Some 0 /\
    (forall h, ~ In (Quit h) (Chrome (launch_options quiet_page) devnull :: map snd rest)) /\
    (Quiet quiet_page -> driver (bot (snd (start quiet_page (logged_in true)))) = Some 1).
Proof.
  split; [reflexivity|].
  split; [reflexivity|].
  apply (start_again_replaces_driver quiet_page (logged_in true) 0 1
           {| clock := 0; sessions := 2; closed := []; opened := None;
              seen := []; typed := [] |}).
  - reflexivity.
  - reflexivity.
Defined.

(** After the second [start] both sessions are open and none was quit. *)
Example second_start_leaves_two_sessions :
  let m' := snd (start quiet_page (logged_in true)) in
  driver (bot m') = Some 1 /\ sessions (world m') = 2 /\ closed (world m') = [].
Proof. repeat split. Qed.

End Runs.

(** ** Further runs on the simulated page *)

Section MoreRuns.

Import Sim.

Lemma wait_for_login_outcome_witness :
  Quiet quiet_page /\
  ((fst (wait_for_login quiet_page (logged_in false)) = Ok true /\
    bot (snd (wait_for_login quiet_page (logged_in false))) =
      {| driver := driver (bot (logged_in false)); is_authenticated := true;
         running := running (bot (logged_in false)) |})
   \/
   (fst (wait_for_login quiet_page (logged_in false)) = Ok false /\
    bot (snd (wait_for_login quiet_page (logged_in false))) = bot (logged_in false))).
Proof.
  split; [intros w b; reflexivity|].
  apply (wait_for_login_outcome quiet_page (logged_in false)).
  intros w b; reflexivity.
Defined.

Lemma wait_for_login_success_calls_witness :
  Quiet quiet_page /\
  fst (wait_for_login quiet_page (logged_in false)) = Ok true /\
  exists d qr_element qr_img,
    driver (bot (logged_in false)) = Some d /\
    events (snd (wait_for_login quiet_page (logged_in false))) =
      (events (logged_in false) ++
       [WaitUntilPresent d 30 qr_selector;
        ExecuteScript d qr_script qr_element;
        Show qr_img;
        LogInfo "QR code generated. Please scan with WhatsApp";
        WaitUntilPresent d 120 chat_list_selector;
        LogInfo "WhatsApp login successful!"])%list.
Proof.
  split; [intros w b; reflexivity|].
  split; [reflexivity|].
  apply (wait_for_login_success_calls quiet_page (logged_in false)).
  - intros w b; reflexivity.
  - reflexivity.
Defined.

Lemma wait_for_login_no_challenge_witness :
  driver (bot (logged_in false)) = Some 0 /\
  wait_until_present timeout_page 0 30 qr_selector (world (logged_in false)) =
    (Raise TimeoutException, tick 30 (world (logged_in false))) /\
  fst (wait_for_login timeout_page (logged_in false)) = Ok false /\
  world (snd (wait_for_login timeout_page (logged_in false))) =
    tick 30 (world (logged_in false)) /\
  events (snd (wait_for_login timeout_page (logged_in false))) =
    (events (logged_in false) ++
     [WaitUntilPresent 0 30 qr_selector;
      LogError ("Login failed: " ++ exn_str TimeoutException)])%list.
Proof.
  split; [reflexivity|].
  split; [reflexivity|].
  apply (wait_for_login_no_challenge timeout_page (logged_in false) 0
           TimeoutException (tick 30 (world (logged_in false)))).
  - reflexivity.
  - reflexivity.
Defined.

Lemma launch_error_reaches_the_route_witness :
  chrome (without_chrome quiet_page) (launch_options (without_chrome quiet_page))
    devnull (world fresh) = (Raise SessionNotCreated, blank) /\
  fst (start_bot (without_chrome quiet_page) fresh) = Raise SessionNotCreated /\
  events (snd (start_bot (without_chrome quiet_page) fresh)) =
    (events fresh ++ [Chrome (launch_options (without_chrome quiet_page)) devnull])%list /\
  world (snd (start_bot (without_chrome quiet_page) fresh)) = blank /\
  (Quiet (without_chrome quiet_page) ->
   bot (snd (start_bot (without_chrome quiet_page) fresh)) =
     with_running true (bot fresh)).
Proof.
  split; [reflexivity|].
  apply (launch_error_reaches_the_route (without_chrome quiet_page) fresh
           SessionNotCreated blank).
  reflexivity.
Defined.

Lemma page_load_error_leaves_browser_open_witness :
  Quiet (offline quiet_page) /\
  chrome (offline quiet_page) (launch_options (offline quiet_page)) devnull
    (world fresh) = (Ok 0, world (logged_in false)) /\
  get (offline quiet_page) 0 whatsapp_url (world (logged_in false)) =
    (Raise Disconnected, world (logged_in false)) /\
  fst (start_bot (offline quiet_page) fresh) = Raise Disconnected /\
  bot (snd (start_bot (offline quiet_page) fresh)) =
    with_driver 0 (with_running true (bot fresh)) /\
  events (snd (start_bot (offline quiet_page) fresh)) =
    (events fresh ++ [Chrome (launch_options (offline quiet_page)) devnull;
                      Get 0 whatsapp_url])%list.
Proof.
  split; [intros w b; reflexivity|].
  split; [reflexivity|].
  split; [reflexivity|].
  apply (page_load_error_leaves_browser_open (offline quiet_page) fresh 0
           Disconnected (world (logged_in false)) (world (logged_in false))).
  - intros w b; reflexivity.
  - reflexivity.
  - reflexivity.
Defined.

Lemma successful_start_calls_witness :
  Quiet quiet_page /\
  fst (start quiet_page fresh) = Ok true /\
  exists h qr_element qr_img,
    bot (snd (start quiet_page fresh)) =
      {| driver := Some h; is_authenticated := true; running := true |} /\
    events (snd (start quiet_page fresh)) =
      (events fresh ++
       [Chrome (launch_options quiet_page) devnull;
        Get h whatsapp_url;
        LogInfo "WhatsApp Web opened";
        WaitUntilPresent h 30 qr_selector;
        ExecuteScript h qr_script qr_element;
        Show qr_img;
        LogInfo "QR code generated. Please scan with WhatsApp";
        WaitUntilPresent h 120 chat_list_selector;
        LogInfo "WhatsApp login successful!";
        ThreadStart;
        LogInfo "WhatsApp bot started successfully!"])%list.
Proof.
  split; [intros w b; reflexivity|].
  split; [reflexivity|].
  apply (successful_start_calls quiet_page fresh).
  - intros w b; reflexivity.
  - reflexivity.
Defined.

Lemma is_authenticated_is_never_cleared_witness :
  Quiet timeout_page /\
  is_authenticated (bot (logged_in true)) = true /\
  is_authenticated (bot (snd (start_bot timeout_page (logged_in true)))) = true /\
  is_authenticated (bot (snd (stop_bot timeout_page (logged_in true)))) = true /\
  is_authenticated (bot (snd (poll_iteration timeout_page (logged_in true)))) = true.
Proof.
  split; [intros w b; reflexivity|].
  split; [reflexivity|].
  apply (is_authenticated_is_never_cleared timeout_page (logged_in true)).
  - intros w b; reflexivity.
  - reflexivity.
Defined.

(** On that page the second handshake fails: the flag is stale. *)
Example stale_is_authenticated :
  fst (start_bot timeout_page (logged_in true)) = Ok (failure "Failed to start bot") /\
  is_authenticated (bot (snd (start_bot timeout_page (logged_in true)))) = true.
Proof. split; reflexivity. Qed.

Lemma health_after_start_and_after_stop_witness :
  Quiet timeout_page /\
  fst (health_check (snd (start_bot timeout_page fresh))) = Ok (healthy true) /\
  fst (health_check (snd (stop_bot timeout_page (logged_in true)))) = Ok (healthy false).
Proof.
  split; [intros w b; reflexivity|].
  split.
  - apply (health_after_start_and_after_stop timeout_page fresh).
    intros w b; reflexivity.
  - apply (health_after_start_and_after_stop timeout_page (logged_in true)).
    intros w b; reflexivity.
Defined.

Lemma stop_before_any_start_witness :
  driver (bot fresh) = None /\
  fst (stop_bot quiet_page fresh) = Ok (success "Bot stopped successfully") /\
  bot (snd (stop_bot quiet_page fresh)) = with_running false (bot fresh) /\
  world (snd (stop_bot quiet_page fresh)) = world fresh /\
  events (snd (stop_bot quiet_page fresh)) =
    (events fresh ++ [LogInfo "WhatsApp bot stopped"])%list.
Proof.
  split; [reflexivity|].
  apply (stop_before_any_start quiet_page fresh). reflexivity.
Defined.

Lemma stop_twice_quits_twice_witness :
  Quiet quiet_page /\
  driver (bot (logged_in true)) = Some 0 /\
  bot (snd (stop quiet_page (snd (stop quiet_page (logged_in true))))) =
    bot (snd (stop quiet_page (logged_in true))) /\
  events (snd (stop quiet_page (snd (stop quiet_page (logged_in true))))) =
    (events (logged_in true) ++
     [Quit 0; LogInfo "WhatsApp bot stopped";
      Quit 0; LogInfo "WhatsApp bot stopped"])%list.
Proof.
  split; [intros w b; reflexivity|].
  split; [reflexivity|].
  apply (stop_twice_quits_twice quiet_page (logged_in true) 0).
  - intros w b; reflexivity.
  - reflexivity.
Defined.

Lemma second_start_then_stop_leaks_first_browser_witness :
  Quiet quiet_page /\
  driver (bot (logged_in true)) = Some 0 /\
  chrome quiet_page (launch_options quiet_page) devnull (world (logged_in true)) =
    (Ok 1, {| clock := 0; sessions := 2; closed := []; opened := None;
              seen := []; typed := [] |}) /\
  0 <> 1 /\
  exists added,
    events (snd (stop quiet_page (snd (start quiet_page (logged_in true))))) =
      (events (logged_in true) ++ added)%list /\
    In (Quit 1) added /\
    ~ In (Quit 0) added.
Proof.
  split; [intros w b; reflexivity|].
  split; [reflexivity|].
  split; [reflexivity|].
  split; [discriminate|].
  apply (second_start_then_stop_leaks_first_browser quiet_page (logged_in true) 0 1
           {| clock := 0; sessions := 2; closed := []; opened := None;
              seen := []; typed := [] |}).
  - intros w b; reflexivity.
  - reflexivity.
  - reflexivity.
  - discriminate.
Defined.

(** The page after that run: two sessions, only the second one closed. *)
Example first_browser_still_open :
  let m' := snd (stop quiet_page (snd (start quiet_page (logged_in true)))) in
  sessions (world m') = 2 /\ closed (world m') = [1].
Proof. split; reflexivity. Qed.

Lemma poll_iteration_leaves_the_bot_alone_witness :
  Quiet quiet_page /\
  bot (snd (poll_iteration quiet_page (logged_in true))) = bot (logged_in true) /\
  exists added,
    events (snd (poll_iteration quiet_page (logged_in true))) =
      (events (logged_in true) ++ added)%list /\
    forall ev, In ev added ->
      match ev with
      | Chrome _ _ | Get _ _ | Quit _ | ThreadStart => False
      | _ => True
      end.
Proof.
  split; [intros w b; reflexivity|].
  apply (poll_iteration_leaves_the_bot_alone quiet_page (logged_in true)).
  intros w b; reflexivity.
Defined.

Lemma undisturbed_loop_never_returns_witness :
  Quiet quiet_page /\
  running (bot (logged_in true)) = true /\
  forall fuel, process_messages quiet_page fuel (logged_in true) = None.
Proof.
  split; [intros w b; reflexivity|].
  split; [reflexivity|].
  apply (undisturbed_loop_never_returns quiet_page (logged_in true)).
  - intros w b; reflexivity.
  - reflexivity.
Defined.

Lemma pass_without_unread_conversations_witness :
  driver (bot (logged_in true)) = Some 0 /\
  find_elements timeout_page 0 unread_selector (world (logged_in true)) =
    (Ok [], world (logged_in true)) /\
  fst (poll_iteration timeout_page (logged_in true)) = Ok tt /\
  world (snd (poll_iteration timeout_page (logged_in true))) =
    sleep timeout_page 5 (world (logged_in true)) /\
  events (snd (poll_iteration timeout_page (logged_in true))) =
    (events (logged_in true) ++ [FindElements 0 unread_selector; Sleep 5])%list.
Proof.
  split; [reflexivity|].
  split; [reflexivity|].
  apply (pass_without_unread_conversations timeout_page (logged_in true) 0
           (world (logged_in true))).
  - reflexivity.
  - reflexivity.
Defined.

Lemma failing_conversation_ends_the_pass_witness :
  let m := logged_in true in
  let m1 :=
    {| bot := other_threads two_chats_page (world m) (bot m);
       world := world m;
       history := record (FindElements 0 unread_selector) m |} in
  let m2 := snd (handle_chat two_chats_page 10 m1) in
  driver (bot m) = Some 0 /\
  find_elements two_chats_page 0 unread_selector (world m) =
    (Ok ([] ++ 10 :: [20])%list, world m) /\
  for_each [] (handle_chat two_chats_page) m1 = (Ok tt, m1) /\
  handle_chat two_chats_page 10 m1 =
    (Raise (Exception "TypeError" "argument of type 'NoneType' is not iterable"), m2) /\
  fst (poll_iteration two_chats_page m) = Ok tt /\
  world (snd (poll_iteration two_chats_page m)) = sleep two_chats_page 10 (world m2) /\
  events (snd (poll_iteration two_chats_page m)) =
    (events m2 ++
     [LogError ("Error processing messages: " ++
                exn_str (Exception "TypeError"
                           "argument of type 'NoneType' is not iterable"));
      Sleep 10])%list.
Proof.
  split; [reflexivity|].
  split; [reflexivity|].
  split; [reflexivity|].
  split; [reflexivity|].
  apply (failing_conversation_ends_the_pass two_chats_page (logged_in true)
           {| bot := other_threads two_chats_page (world (logged_in true))
                       (bot (logged_in true));
              world := world (logged_in true);
              history := record (FindElements 0 unread_selector) (logged_in true) |}
           (snd (handle_chat two_chats_page 10
                   {| bot := other_threads two_chats_page (world (logged_in true))
                               (bot (logged_in true));
                      world := world (logged_in true);
                      history := record (FindElements 0 unread_selector)
                                   (logged_in true) |}))
           0 (world (logged_in true)) [] 10 [20]
           (Exception "TypeError" "argument of type 'NoneType' is not iterable")).
  - reflexivity.
  - reflexivity.
  - reflexivity.
  - reflexivity.
Defined.

(** The second conversation of that page is not opened in the pass. *)
Example second_conversation_untouched :
  ~ In (Click 20) (events (snd (poll_iteration two_chats_page (logged_in true)))).
Proof. vm_compute. intuition discriminate. Qed.

Lemma conversation_without_messages_is_skipped_witness :
  let m := logged_in true in
  let w1 := snd (click empty_chat_page 30 (world m)) in
  let w2 := sleep empty_chat_page 2 w1 in
  Quiet empty_chat_page /\
  driver (bot m) = Some 0 /\
  click empty_chat_page 30 (world m) = (Ok tt, w1) /\
  find_elements empty_chat_page 0 message_selector (sleep empty_chat_page 2 w1) =
    (Ok [], w2) /\
  fst (handle_chat empty_chat_page 30 m) = Ok tt /\
  world (snd (handle_chat empty_chat_page 30 m)) = w2 /\
  events (snd (handle_chat empty_chat_page 30 m)) =
    (events m ++ [Click 30; Sleep 2; FindElements 0 message_selector])%list.
Proof.
  split; [intros w b; reflexivity|].
  split; [reflexivity|].
  split; [reflexivity|].
  split; [reflexivity|].
  apply (conversation_without_messages_is_skipped empty_chat_page 30 (logged_in true) 0
           (snd (click empty_chat_page 30 (world (logged_in true))))
           (sleep empty_chat_page 2
              (snd (click empty_chat_page 30 (world (logged_in true)))))).
  - intros w b; reflexivity.
  - reflexivity.
  - reflexivity.
  - reflexivity.
Defined.

Lemma missing_class_attribute_raises_witness :
  let m := logged_in true in
  let m1 := snd (read_last_message unmarked_page 10 m) in
  read_last_message unmarked_page 10 m = (Ok (Some ("photo", None)), m1) /\
  handle_chat unmarked_page 10 m =
    (Raise (Exception "TypeError" "argument of type 'NoneType' is not iterable"), m1).
Proof.
  split; [reflexivity|].
  apply (missing_class_attribute_raises unmarked_page 10 (logged_in true)
           (snd (read_last_message unmarked_page 10 (logged_in true))) "photo").
  reflexivity.
Defined.

Lemma provider_error_sends_the_fallback_witness :
  let m := logged_in true in
  let m1 := snd (read_last_message failing_provider 10 m) in
  let e := Exception "ResourceExhausted" "429 quota exceeded" in
  let w := world m1 in
  let w3 := snd (send_keys failing_provider input_box fallback_message w) in
  let w4 := snd (send_keys failing_provider input_box newline w3) in
  read_last_message failing_provider 10 m =
    (Ok (Some ("Hello", Some "message-in focusable")), m1) /\
  direction_of "message-in focusable" = incoming /\
  provider_error failing_provider "Hello" (world m1) = Some e /\
  snd (generate_content failing_provider "Hello" (world m1)) = w /\
  driver (other_threads failing_provider w (bot m1)) = Some 0 /\
  find_element failing_provider 0 input_selector w = (Ok input_box, w) /\
  click failing_provider input_box w = (Ok tt, w) /\
  send_keys failing_provider input_box fallback_message w = (Ok tt, w3) /\
  send_keys failing_provider input_box newline w3 = (Ok tt, w4) /\
  typed w4 = [fallback_message; newline] /\
  fst (handle_chat failing_provider 10 m) = Ok tt /\
  world (snd (handle_chat failing_provider 10 m)) = w4 /\
  events (snd (handle_chat failing_provider 10 m)) =
    (events m1 ++
     [GenerateContent "Hello";
      LogError ("Gemini API error: " ++ exn_str e);
      FindElement 0 input_selector;
      Click input_box;
      SendKeys input_box fallback_message;
      SendKeys input_box newline;
      LogInfo ("Message processed: " ++ take 50 "Hello" ++ "...")])%list.
Proof.
  do 10 (split; [reflexivity|]).
  apply (provider_error_sends_the_fallback failing_provider 10 (logged_in true)
           (snd (read_last_message failing_provider 10 (logged_in true)))
           "Hello" "message-in focusable"
           (Exception "ResourceExhausted" "429 quota exceeded")
           0 input_box
           (world (snd (read_last_message failing_provider 10 (logged_in true))))
           (world (snd (read_last_message failing_provider 10 (logged_in true))))
           (world (snd (read_last_message failing_provider 10 (logged_in true))))
           (snd (send_keys failing_provider input_box fallback_message
                   (world (snd (read_last_message failing_provider 10
                                 (logged_in true))))))
           (snd (send_keys failing_provider input_box newline
                   (snd (send_keys failing_provider input_box fallback_message
                           (world (snd (read_last_message failing_provider 10
                                         (logged_in true)))))))));
    reflexivity.
Defined.

Lemma auto_start_disabled_witness :
  let E := with_environ (setenv "AUTO_START" "False") quiet_page in
  lower (environ_get E "AUTO_START" "true") <> "true" /\
  fst (run_bot_in_background E fresh) = Ok tt /\
  world (snd (run_bot_in_background E fresh)) = sleep E 10 (world fresh) /\
  events (snd (run_bot_in_background E fresh)) = (events fresh ++ [Sleep 10])%list /\
  (Quiet E -> bot (snd (run_bot_in_background E fresh)) = bot fresh).
Proof.
  split; [vm_compute; discriminate|].
  apply (auto_start_disabled (with_environ (setenv "AUTO_START" "False") quiet_page)
           fresh).
  vm_compute; discriminate.
Defined.

Lemma auto_start_enabled_witness :
  let E := with_environ (setenv "AUTO_START" "True") quiet_page in
  lower (environ_get E "AUTO_START" "true") = "true" /\
  exists rest,
    events (snd (run_bot_in_background E fresh)) =
      (events fresh ++ Sleep 10 :: Chrome (launch_options E) devnull :: rest)%list.
Proof.
  split; [reflexivity|].
  apply (auto_start_enabled (with_environ (setenv "AUTO_START" "True") quiet_page)
           fresh).
  reflexivity.
Defined.

(** With the variable unset the bot is started as well. *)
Example auto_start_when_unset :
  lower (environ_get quiet_page "AUTO_START" "true") = "true" /\
  running (bot (snd (run_bot_in_background quiet_page fresh))) = true.
Proof. split; reflexivity. Qed.

End MoreRuns.
